(** * String algorithms of the repository: Knuth-Morris-Pratt search and
    minimum-cost string conversion.

    The Python functions of [strings/knuth_morris_pratt.py] and
    [strings/min_cost_string_conversion.py] are embedded as Rocq functions.
    A Python [str] is a list of characters, a Python list is a list indexed
    with stdpp's lookup, and an index out of range is the value
    [IndexError] of the [result] type.  The [while] loops of the source are
    iterated with a fuel; running out of it is the value [OutOfFuel], and
    the theorems show that a stated amount of fuel is always enough. *)

From Stdlib Require Import ZArith Lia Ascii String DecimalString.
From stdpp Require Import base numbers list strings.

Local Open Scope nat_scope.

(** ** Python values and control flow *)

(** A character, and a Python [str] as the list of its characters. *)
Abbreviation char := ascii.
Abbreviation str := (list ascii).

(** A string literal as a Python [str]. *)
Definition py (s : string) : str := list_ascii_of_string s.

Inductive result (A : Type) : Type :=
  | Ok (a : A)
  | IndexError
  | OutOfFuel.
Arguments Ok {A} a.
Arguments IndexError {A}.
Arguments OutOfFuel {A}.

Definition bind {A B : Type} (r : result A) (k : A -> result B) : result B :=
  match r with
  | Ok a => k a
  | IndexError => IndexError
  | OutOfFuel => OutOfFuel
  end.

Notation "'let*' x ':=' r 'in' k" := (bind r (fun x => k))
  (at level 10, x pattern, r at level 100, k at level 200).

(** [l[i]] for an index that is a non-negative counter. *)
Definition index {A : Type} (l : list A) (i : nat) : result A :=
  match l !! i with
  | Some x => Ok x
  | None => IndexError
  end.

(** One pass through a [while] loop: go round again with a new state
    ([Continue], which covers Python's [continue] and the fall through the
    end of the body), leave the function with a value ([Return]), or raise. *)
Inductive flow (S R : Type) : Type :=
  | Continue (s : S)
  | Return (r : R)
  | Raise.
Arguments Continue {S R} s.
Arguments Return {S R} r.
Arguments Raise {S R}.

Fixpoint while {S R : Type} (fuel : nat) (body : S -> flow S R) (s : S) : result R :=
  match fuel with
  | O => OutOfFuel
  | Datatypes.S fuel' =>
      match body s with
      | Continue s' => while fuel' body s'
      | Return r => Ok r
      | Raise => IndexError
      end
  end.

(** The states a loop goes through, starting from [s0]. *)
Inductive visits {S R : Type} (body : S -> flow S R) (s0 : S) : S -> Prop :=
  | visits_start : visits body s0 s0
  | visits_next s s' : visits body s0 s -> body s = Continue s' -> visits body s0 s'.

(** ** knuth_morris_pratt.py *)

(** The loop of [get_failure_array]; the state is [(failure, i, j)].  The
    counters start at 0 and 1 and are only incremented or loaded from
    [failure], which holds earlier values of [i]: they are naturals. *)
Definition failure_iter (pattern : str) (st : list nat * nat * nat)
  : flow (list nat * nat * nat) (list nat) :=
  let '(failure, i, j) := st in
  if j <? length pattern then
    match pattern !! i, pattern !! j with
    | Some a, Some b =>
        if bool_decide (a = b) then
          Continue (failure ++ [i + 1], i + 1, j + 1)
        else if 0 <? i then
          match failure !! (i - 1) with
          | Some k => Continue (failure, k, j)
          | None => Raise
          end
        else Continue (failure ++ [i], i, j + 1)
    | _, _ => Raise
    end
  else Return failure.

Definition get_failure_array (fuel : nat) (pattern : str) : result (list nat) :=
  while fuel (failure_iter pattern) ([0], 0, 1).

(** The scan loop of [kmp]; the state is [(i, j)], the indices into the
    text and the pattern.  [j == len(pattern) - 1] is compared over the
    integers, as Python does. *)
Definition kmp_iter (pattern text : str) (failure : list nat) (st : nat * nat)
  : flow (nat * nat) bool :=
  let '(i, j) := st in
  if i <? length text then
    match pattern !! j, text !! i with
    | Some p, Some t =>
        if bool_decide (p = t) then
          if (Z.of_nat j =? Z.of_nat (length pattern) - 1)%Z then Return true
          else Continue (i + 1, j + 1)
        else if 0 <? j then
          match failure !! (j - 1) with
          | Some k => Continue (i, k)
          | None => Raise
          end
        else Continue (i + 1, j)
    | _, _ => Raise
    end
  else Return false.

Definition kmp (fuel : nat) (pattern text : str) : result bool :=
  let* failure := get_failure_array fuel pattern in
  while fuel (kmp_iter pattern text failure) (0, 0).

(** Fuel that is enough for both loops of [kmp]. *)
Definition enough (pattern text : str) : nat :=
  2 * length pattern + 2 * length text + 2.

(** *** What the functions are specified against *)

(** [k] is the length of a proper prefix of [w] that is also a suffix of it. *)
Definition border (w : str) (k : nat) : Prop :=
  k < length w /\ take k w = drop (length w - k) w.

Definition longest_border (w : str) (k : nat) : Prop :=
  border w k /\ forall k', border w k' -> k' <= k.

(** [pattern] is a contiguous part of [text], starting at offset [length l1]. *)
Definition occurs (pattern text : str) : Prop :=
  exists l1 l2 : str, text = l1 ++ pattern ++ l2.

(** The naive scan: try every offset, compare symbol by symbol. *)
Fixpoint starts_with (pattern text : str) : bool :=
  match pattern, text with
  | [], _ => true
  | _ :: _, [] => false
  | p :: pattern', t :: text' => bool_decide (p = t) && starts_with pattern' text'
  end.

Fixpoint naive_scan (pattern text : str) : bool :=
  starts_with pattern text ||
  match text with
  | [] => false
  | _ :: text' => naive_scan pattern text'
  end.

(** ** min_cost_string_conversion.py *)

(** [t[i][j]] and [t[i][j] = v] on a list of rows.  The rows are built by a
    nested list comprehension, so they are distinct objects and an
    assignment changes one row only. *)
Definition get2 {A : Type} (t : list (list A)) (i j : nat) : result A :=
  let* row := index t i in
  index row j.

Definition set2 {A : Type} (t : list (list A)) (i j : nat) (v : A)
  : result (list (list A)) :=
  let* row := index t i in
  if j <? length row then Ok (<[i := <[j := v]> row]> t) else IndexError.

(** [for x in xs: s = body(x, s)], stopping at the first error. *)
Fixpoint for_each {S : Type} (xs : list nat) (body : nat -> S -> result S) (s : S)
  : result S :=
  match xs with
  | [] => Ok s
  | x :: xs' => let* s' := body x s in for_each xs' body s'
  end.

(** The operation strings: ["C%c" % a], ["R%c" % a + str(b)], ["D%c" % a]
    and ["I%c" % b]. *)
Definition op_copy (a : char) : str := ["C"%char; a].
Definition op_replace (a b : char) : str := ["R"%char; a] ++ [b].
Definition op_delete (a : char) : str := ["D"%char; a].
Definition op_insert (b : char) : str := ["I"%char; b].

Section Costs.

Variables copy_cost replace_cost delete_cost insert_cost : Z.

(** The body of the first loop: column 0 of row [i]. *)
Definition init_column (source_seq : str) (i : nat)
    (tables : list (list Z) * list (list str))
  : result (list (list Z) * list (list str)) :=
  let '(costs, ops) := tables in
  let* costs := set2 costs i 0 (Z.of_nat i * delete_cost)%Z in
  let* a := index source_seq (i - 1) in
  let* ops := set2 ops i 0 (op_delete a) in
  Ok (costs, ops).

(** The body of the second loop: row 0 of column [i]. *)
Definition init_row (destination_seq : str) (i : nat)
    (tables : list (list Z) * list (list str))
  : result (list (list Z) * list (list str)) :=
  let '(costs, ops) := tables in
  let* costs := set2 costs 0 i (Z.of_nat i * insert_cost)%Z in
  let* b := index destination_seq (i - 1) in
  let* ops := set2 ops 0 i (op_insert b) in
  Ok (costs, ops).

(** The body of the inner loop of the third loop nest: the cell [(i, j)]. *)
Definition fill_cell (source_seq destination_seq : str) (i j : nat)
    (tables : list (list Z) * list (list str))
  : result (list (list Z) * list (list str)) :=
  let '(costs, ops) := tables in
  let* a := index source_seq (i - 1) in
  let* b := index destination_seq (j - 1) in
  let* (costs, ops) :=
    if bool_decide (a = b) then
      let* diag := get2 costs (i - 1) (j - 1) in
      let* costs := set2 costs i j (diag + copy_cost)%Z in
      let* a := index source_seq (i - 1) in
      let* ops := set2 ops i j (op_copy a) in
      Ok (costs, ops)
    else
      let* diag := get2 costs (i - 1) (j - 1) in
      let* costs := set2 costs i j (diag + replace_cost)%Z in
      let* a := index source_seq (i - 1) in
      let* b := index destination_seq (j - 1) in
      let* ops := set2 ops i j (op_replace a b) in
      Ok (costs, ops) in
  let* vert := get2 costs (i - 1) j in
  let* cur := get2 costs i j in
  let* (costs, ops) :=
    if (vert + delete_cost <? cur)%Z then
      let* vert := get2 costs (i - 1) j in
      let* costs := set2 costs i j (vert + delete_cost)%Z in
      let* a := index source_seq (i - 1) in
      let* ops := set2 ops i j (op_delete a) in
      Ok (costs, ops)
    else Ok (costs, ops) in
  let* horiz := get2 costs i (j - 1) in
  let* cur := get2 costs i j in
  if (horiz + insert_cost <? cur)%Z then
    let* horiz := get2 costs i (j - 1) in
    let* costs := set2 costs i j (horiz + insert_cost)%Z in
    let* b := index destination_seq (j - 1) in
    let* ops := set2 ops i j (op_insert b) in
    Ok (costs, ops)
  else Ok (costs, ops).

Definition compute_transform_tables (source_string destination_string : str)
  : result (list (list Z) * list (list str)) :=
  let source_seq := source_string in
  let destination_seq := destination_string in
  let len_source_seq := length source_seq in
  let len_destination_seq := length destination_seq in
  let costs := replicate (len_source_seq + 1) (replicate (len_destination_seq + 1) 0%Z) in
  let ops := replicate (len_source_seq + 1) (replicate (len_destination_seq + 1) (py "0")) in
  let* tables := for_each (seq 1 len_source_seq) (init_column source_seq) (costs, ops) in
  let* tables := for_each (seq 1 len_destination_seq) (init_row destination_seq) tables in
  for_each (seq 1 len_source_seq)
    (fun i => for_each (seq 1 len_destination_seq) (fill_cell source_seq destination_seq i))
    tables.

End Costs.

(** [l[k]] for an integer supplied by the caller: a negative index counts
    from the end of the list. *)
Definition py_index {A : Type} (l : list A) (k : Z) : result A :=
  let n := Z.of_nat (length l) in
  if (0 <=? k)%Z then index l (Z.to_nat k)
  else if (- n <=? k)%Z then index l (Z.to_nat (n + k))
  else IndexError.

(** [assemble_transformation]; the fuel bounds the depth of the recursion.
    The list returned by the recursive call is fresh, so [seq.append] is
    the list with one more element.  (Python's own recursion limit is not
    part of the model.) *)
Fixpoint assemble_transformation (fuel : nat) (ops : list (list str)) (i j : Z)
  : result (list str) :=
  match fuel with
  | O => OutOfFuel
  | S fuel' =>
      if (i =? 0)%Z && (j =? 0)%Z then Ok []
      else
        let* row := py_index ops i in
        let* op := py_index row j in
        let* tag := py_index op 0 in
        if bool_decide (tag = "C"%char) || bool_decide (tag = "R"%char) then
          let* seq := assemble_transformation fuel' ops (i - 1) (j - 1) in
          Ok (seq ++ [op])
        else if bool_decide (tag = "D"%char) then
          let* seq := assemble_transformation fuel' ops (i - 1) j in
          Ok (seq ++ [op])
        else
          let* seq := assemble_transformation fuel' ops i (j - 1) in
          Ok (seq ++ [op])
  end.

(** The cell that the call at [(i, j)] recurses to, when it recurses. *)
Definition callee (ops : list (list str)) (i j : Z) : result (Z * Z) :=
  let* row := py_index ops i in
  let* op := py_index row j in
  let* tag := py_index op 0 in
  if bool_decide (tag = "C"%char) || bool_decide (tag = "R"%char) then Ok (i - 1, j - 1)%Z
  else if bool_decide (tag = "D"%char) then Ok (i - 1, j)%Z
  else Ok (i, j - 1)%Z.

(** *** Applying an edit script *)

(** The reference reading of an edit script, after the specification: the
    operations are applied in order to a mutable copy of the source with a
    cursor.  Copy keeps the symbol under the cursor, Replace substitutes
    it, Insert adds a symbol before it; all three move the cursor one
    place on.  Delete removes the symbol under the cursor, which then
    rests on the next symbol.  An operation that names a source symbol
    applies only when that symbol is the one under the cursor.
    ([print_operations] in the source is a printer for one fixed string
    and is not the reading taken here.) *)
Definition apply_op (op : str) (st : str * nat) : option (str * nat) :=
  let '(string, i) := st in
  match op with
  | [tag; a] =>
      if bool_decide (tag = "C"%char) then
        if bool_decide (string !! i = Some a) then Some (string, i + 1) else None
      else if bool_decide (tag = "D"%char) then
        if bool_decide (string !! i = Some a) then Some (delete i string, i) else None
      else if bool_decide (tag = "I"%char) then
        if i <=? length string then Some (take i string ++ a :: drop i string, i + 1)
        else None
      else None
  | [tag; a; b] =>
      if bool_decide (tag = "R"%char) then
        if bool_decide (string !! i = Some a) then Some (<[i := b]> string, i + 1) else None
      else None
  | _ => None
  end.

Fixpoint apply_script (script : list str) (st : str * nat) : option (str * nat) :=
  match script with
  | [] => Some st
  | op :: script' =>
      match apply_op op st with
      | Some st' => apply_script script' st'
      | None => None
      end
  end.

Section ScriptCost.

Variables copy_cost replace_cost delete_cost insert_cost : Z.

Definition op_cost (op : str) : Z :=
  match op with
  | tag :: _ =>
      if bool_decide (tag = "C"%char) then copy_cost
      else if bool_decide (tag = "R"%char) then replace_cost
      else if bool_decide (tag = "D"%char) then delete_cost
      else if bool_decide (tag = "I"%char) then insert_cost
      else 0%Z
  | [] => 0%Z
  end.

Definition script_cost (script : list str) : Z :=
  foldr (fun op acc => (op_cost op + acc)%Z) 0%Z script.

End ScriptCost.

(** ** Invariants of the loops *)

(** [pborder P n k]: the first [k] symbols of [P] are also the last [k] of
    its first [n], and [k < n]. *)
Definition pborder (P : str) (n k : nat) : Prop :=
  k < n /\ n <= length P /\ forall t, t < k -> P !! t = P !! (n - k + t).

(** [f] is a correct failure table for the first [n] positions of [P]. *)
Definition failure_upto (P : str) (f : list nat) (n : nat) : Prop :=
  length f = n /\
  forall t k, f !! t = Some k ->
    pborder P (t + 1) k /\ forall k', pborder P (t + 1) k' -> k' <= k.

(** The invariant and the variant of the loop of [get_failure_array]. *)
Definition failure_inv (P : str) (st : list nat * nat * nat) : Prop :=
  let '(f, i, j) := st in
  1 <= j <= length P /\ failure_upto P f j /\ pborder P j i /\
  forall k', pborder P (j + 1) k' -> k' <= i + 1.

Definition failure_variant (P : str) (st : list nat * nat * nat) : nat :=
  let '(_, i, j) := st in 2 * (length P - j) + i.

(** [P] lies in [T] at offset [s]. *)
Definition occurs_at (P T : str) (s : nat) : Prop :=
  forall t, t < length P -> T !! (s + t) = P !! t.

(** The invariant and the variant of the scan loop of [kmp]. *)
Definition kmp_inv (P T : str) (st : nat * nat) : Prop :=
  let '(i, j) := st in
  j <= i <= length T /\ j < length P /\
  (forall t, t < j -> P !! t = T !! (i - j + t)) /\
  forall s, s + j < i -> ~ occurs_at P T s.

Definition kmp_variant (T : str) (st : nat * nat) : nat :=
  let '(i, j) := st in 2 * (length T - i) + j.

(** [t] has [m + 1] rows of [n + 1] cells each. *)
Definition dims {A : Type} (t : list (list A)) (m n : nat) : Prop :=
  length t = m + 1 /\ forall i row, t !! i = Some row -> length row = n + 1.

(** [t'] is [t] with the cell [(i, j)] set to [v]. *)
Definition written {A : Type} (m n : nat) (t t' : list (list A)) (i j : nat) (v : A) : Prop :=
  dims t' m n /\ get2 t' i j = Ok v /\
  forall x y, ~ (x = i /\ y = j) -> get2 t' x y = get2 t x y.

Section TableInvariants.

Variables copy_cost replace_cost delete_cost insert_cost : Z.
Variables source destination : str.

Local Abbreviation m := (length source).
Local Abbreviation n := (length destination).

(** The cost and the operation that the three tests of the inner loop
    leave in a cell, from the symbols and the three neighbouring costs. *)
Definition choose (a b : char) (diag vert horiz : Z) : Z * str :=
  let c0 := if bool_decide (a = b) then (diag + copy_cost)%Z else (diag + replace_cost)%Z in
  let o0 := if bool_decide (a = b) then op_copy a else op_replace a b in
  let r1 := if (vert + delete_cost <? c0)%Z then ((vert + delete_cost)%Z, op_delete a) else (c0, o0) in
  if (horiz + insert_cost <? r1.1)%Z then ((horiz + insert_cost)%Z, op_insert b) else r1.

(** What the finished tables hold at the cell [(i, j)]. *)
Definition cell_ok (costs : list (list Z)) (ops : list (list str)) (i j : nat) : Prop :=
  match i, j with
  | 0, 0 => get2 costs 0 0 = Ok 0%Z /\ get2 ops 0 0 = Ok (py "0")
  | S i', 0 =>
      exists a, source !! i' = Some a /\
        get2 costs i 0 = Ok (Z.of_nat i * delete_cost)%Z /\
        get2 ops i 0 = Ok (op_delete a)
  | 0, S j' =>
      exists b, destination !! j' = Some b /\
        get2 costs 0 j = Ok (Z.of_nat j * insert_cost)%Z /\
        get2 ops 0 j = Ok (op_insert b)
  | S i', S j' =>
      exists a b diag vert horiz,
        source !! i' = Some a /\ destination !! j' = Some b /\
        get2 costs i' j' = Ok diag /\ get2 costs i' j = Ok vert /\
        get2 costs i j' = Ok horiz /\
        get2 costs i j = Ok (choose a b diag vert horiz).1 /\
        get2 ops i j = Ok (choose a b diag vert horiz).2
  end.

(** The invariant of the three loops: the tables have their dimensions
    and the cells assigned so far ([Done]) hold their final values. *)
Definition tables_inv (Done : nat -> nat -> Prop)
    (tables : list (list Z) * list (list str)) : Prop :=
  let '(costs, ops) := tables in
  dims costs m n /\ dims ops m n /\
  forall i j, i <= m -> j <= n -> Done i j -> cell_ok costs ops i j.

(** The cells assigned before the pass [k] of each loop. *)
Definition done_column (k i j : nat) : Prop := j = 0 /\ i < k.
Definition done_row (k i j : nat) : Prop := j = 0 \/ (i = 0 /\ j < k).
Definition done_cells (k l i j : nat) : Prop := i = 0 \/ j = 0 \/ i < k \/ (i = k /\ j < l).

(** The finished tables: every cell holds its final value. *)
Definition tables_ok (costs : list (list Z)) (ops : list (list str)) : Prop :=
  dims costs m n /\ dims ops m n /\
  forall i j, i <= m -> j <= n -> cell_ok costs ops i j.

(** The operation [op] of cost [w] recorded at the cell [(i, j)], and the
    cell [(i', j')] that it leads back to. *)
Inductive cell_step : nat -> nat -> str -> nat -> nat -> Z -> Prop :=
  | step_copy i j a :
      source !! i = Some a -> destination !! j = Some a ->
      cell_step (S i) (S j) (op_copy a) i j copy_cost
  | step_replace i j a b :
      source !! i = Some a -> destination !! j = Some b -> a <> b ->
      cell_step (S i) (S j) (op_replace a b) i j replace_cost
  | step_delete i j a :
      source !! i = Some a -> cell_step (S i) j (op_delete a) i j delete_cost
  | step_insert i j b :
      destination !! j = Some b -> cell_step i (S j) (op_insert b) i j insert_cost.

End TableInvariants.

(** [assemble_transformation(ops, i, j)] on the tables of "te" and "test". *)
Definition assemble_te_test (i j : Z) : result (list str) :=
  let* (_, ops) := compute_transform_tables 1 1 1 1 (py "te") (py "test") in
  assemble_transformation 10 ops i j.

(** ** min_cost_string_conversion.py: print_operations *)

Definition tab : char := "009"%char.
Definition cr : char := "013"%char.
Definition lf : char := "010"%char.

(** [str(z)] for an integer. *)
Definition str_of_int (z : Z) : str := py (NilZero.string_of_int (Z.to_int z)).

(** ["%-16s" % s]: [s] with spaces added on the right up to [width]. *)
Definition ljust (width : nat) (s : str) : str :=
  s ++ replicate (width - length s) " "%char.

(** [template % c] for a template with one [%c] conversion. *)
Fixpoint format_c (template : str) (c : char) : str :=
  match template with
  | [] => []
  | x :: rest =>
      match rest with
      | y :: rest' =>
          if bool_decide (x = "%"%char) && bool_decide (y = "c"%char) then c :: rest'
          else x :: format_c rest c
      | [] => [x]
      end
  end.

(** The variables of the loop of [print_operations], [string], [i] and
    [cost], with what has been printed so far (one entry for each call of
    [print]) and what has been written to the file (one entry for each
    call of [file.write]). *)
Definition print_state : Type := str * nat * Z * list str * list str.

(** One pass of the loop, for the operation [op].  When an index is out of
    range the pass stops there; what was printed and written before the
    error stays. *)
Definition print_step (op : str) (st : print_state) : print_state * result unit :=
  let '(string, i, cost, printed, written) := st in
  let printed := printed ++ [string] in
  match index op 0 with
  | Ok tag =>
      if bool_decide (tag = "C"%char) then
        match index op 1 with
        | Ok a =>
            let written :=
              written ++ [format_c (ljust 16 (py "Copy %c")) a;
                          [tab; tab; tab] ++ string; [cr; lf]] in
            ((string, i + 1, (cost - 1)%Z, printed, written), Ok tt)
        | _ => ((string, i, cost, printed, written), IndexError)
        end
      else if bool_decide (tag = "R"%char) then
        match index op 2 with
        | Ok b =>
            if i <? length string then
              let string := <[i := b]> string in
              match index op 1 with
              | Ok a =>
                  let written :=
                    written ++ [ljust 16 (format_c (py "Replace %c") a ++ py " with " ++ [b]);
                                [tab; tab] ++ string; [cr; lf]] in
                  ((string, i + 1, (cost + 1)%Z, printed, written), Ok tt)
              | _ => ((string, i, cost, printed, written), IndexError)
              end
            else ((string, i, cost, printed, written), IndexError)
        | _ => ((string, i, cost, printed, written), IndexError)
        end
      else if bool_decide (tag = "D"%char) then
        if i <? length string then
          let string := delete i string in
          match index op 1 with
          | Ok a =>
              let written :=
                written ++ [format_c (ljust 16 (py "Delete %c")) a;
                            [tab; tab; tab] ++ string; [cr; lf]] in
              ((string, i + 1, (cost + 2)%Z, printed, written), Ok tt)
          | _ => ((string, i, cost, printed, written), IndexError)
          end
        else ((string, i, cost, printed, written), IndexError)
      else
        match index op 1 with
        | Ok b =>
            let string := take i string ++ b :: drop i string in
            let written :=
              written ++ [format_c (ljust 16 (py "Insert %c")) b;
                          [tab; tab; tab] ++ string; [cr; lf]] in
            ((string, i + 1, (cost + 2)%Z, printed, written), Ok tt)
        | _ => ((string, i, cost, printed, written), IndexError)
        end
  | _ => ((string, i, cost, printed, written), IndexError)
  end.

(** [for op in sequence: ...] *)
Fixpoint print_loop (sequence : list str) (st : print_state) : print_state * result unit :=
  match sequence with
  | [] => (st, Ok tt)
  | op :: sequence' =>
      match print_step op st with
      | (st', Ok _) => print_loop sequence' st'
      | (st', e) => (st', e)
      end
  end.

(** What a call of [print_operations] leaves behind: the texts printed,
    the texts written to [min_cost.txt], and whether it returned or
    raised. *)
Record report : Type := {
  stdout : list str;
  file_writes : list str;
  outcome : result unit
}.

Definition print_operations (fuel : nat) (source_string destination_string : str)
    (copy_cost replace_cost delete_cost insert_cost : Z) : report :=
  match compute_transform_tables copy_cost replace_cost delete_cost insert_cost
          source_string destination_string with
  | Ok (_, operations) =>
      let m := Z.of_nat (length operations) in
      match index operations 0 with
      | Ok row =>
          let n := Z.of_nat (length row) in
          match assemble_transformation fuel operations (m - 1) (n - 1) with
          | Ok sequence =>
              match print_loop sequence (py "Python", 0, 0%Z, [], []) with
              | ((string, _, cost, printed, written), Ok _) =>
                  {| stdout := printed ++ [string; py "Cost: " ++ py " " ++ str_of_int cost];
                     file_writes :=
                       written ++ [[cr; lf] ++ py "Minimum cost: " ++ str_of_int cost];
                     outcome := Ok tt |}
              | ((_, _, _, printed, written), e) =>
                  {| stdout := printed; file_writes := written; outcome := e |}
              end
          | IndexError => {| stdout := []; file_writes := []; outcome := IndexError |}
          | OutOfFuel => {| stdout := []; file_writes := []; outcome := OutOfFuel |}
          end
      | _ => {| stdout := []; file_writes := []; outcome := IndexError |}
      end
  | IndexError => {| stdout := []; file_writes := []; outcome := IndexError |}
  | OutOfFuel => {| stdout := []; file_writes := []; outcome := OutOfFuel |}
  end.

(** What [print_operations] adds to its [cost] for an operation. *)
Definition printed_weight (op : str) : Z :=
  match op with
  | tag :: _ =>
      if bool_decide (tag = "C"%char) then (-1)%Z
      else if bool_decide (tag = "R"%char) then 1%Z
      else 2%Z
  | [] => 0%Z
  end.

Definition printed_cost (sequence : list str) : Z :=
  foldr (fun op acc => (printed_weight op + acc)%Z) 0%Z sequence.

(** The script of the doctest: "Python" to "Algorithms". *)
Definition python_to_algorithms : list str :=
  [py "IA"; py "Il"; py "Ig"; py "Io"; py "RPr"; py "Ryi"; py "Ct"; py "Ch"; py "Rom"; py "Rns"].

(** ** Counting *)

(** The passes of a loop that go round again. *)
Fixpoint iterations {S R : Type} (fuel : nat) (body : S -> flow S R) (s : S) : nat :=
  match fuel with
  | O => O
  | Datatypes.S fuel' =>
      match body s with
      | Continue s' => Datatypes.S (iterations fuel' body s')
      | _ => O
      end
  end.

(** The operations that use up a symbol of the source (Copy, Replace,
    Delete) and those that give a symbol of the destination (Copy,
    Replace, Insert). *)
Definition consumes (op : str) : bool :=
  match op with
  | tag :: _ =>
      bool_decide (tag = "C"%char) || bool_decide (tag = "R"%char) || bool_decide (tag = "D"%char)
  | [] => false
  end.

Definition produces (op : str) : bool :=
  match op with
  | tag :: _ =>
      bool_decide (tag = "C"%char) || bool_decide (tag = "R"%char) || bool_decide (tag = "I"%char)
  | [] => false
  end.

Definition is_delete (op : str) : bool :=
  match op with
  | tag :: _ => bool_decide (tag = "D"%char)
  | [] => false
  end.

Section Paths.

Variables copy_cost replace_cost delete_cost insert_cost : Z.
Variables source destination : str.

(** The scripts that lead from the cell (0, 0) to the cell [(i, j)], one
    recorded operation after the other. *)
Inductive script_path : nat -> nat -> list str -> Prop :=
  | path_origin : script_path 0 0 []
  | path_step i j op i' j' w script :
      script_path i' j' script ->
      cell_step copy_cost replace_cost delete_cost insert_cost source destination i j op i' j' w ->
      script_path i j (script ++ [op]).

End Paths.

(** ** Loops: invariants and variants *)

Section While.

Context {S R : Type} (body : S -> flow S R).
Variables (Inv : S -> Prop) (variant : S -> nat) (Post : R -> Prop).

Hypothesis body_ok : forall s, Inv s ->
  match body s with
  | Continue s' => Inv s' /\ variant s' < variant s
  | Return r => Post r
  | Raise => False
  end.

Lemma while_total fuel s :
  Inv s -> variant s < fuel -> exists r, while fuel body s = Ok r /\ Post r.
Proof.
  revert s. induction fuel as [|fuel IH]; intros s HI Hv; [lia|].
  simpl. specialize (body_ok s HI). destruct (body s) as [s'|r|].
  - destruct body_ok as [HI' Hlt]. apply IH; [done|lia].
  - eauto.
  - done.
Qed.

Lemma visits_inv s0 s : Inv s0 -> visits body s0 s -> Inv s.
Proof.
  intros H0 Hv. induction Hv as [|s s' _ IH Hb]; [done|].
  specialize (body_ok s IH). rewrite Hb in body_ok. tauto.
Qed.

End While.

(** More fuel does not change a result. *)
Lemma while_more_fuel {S R : Type} (body : S -> flow S R) fuel fuel' s r :
  while fuel body s = Ok r -> fuel <= fuel' -> while fuel' body s = Ok r.
Proof.
  revert fuel' s. induction fuel as [|fuel IH]; intros fuel' s H Hle; [done|].
  destruct fuel' as [|fuel']; [lia|]. simpl in *.
  destruct (body s); try done. apply IH; [done|lia].
Qed.

(** ** Borders, by positions *)

Lemma pborder_zero P n : 0 < n -> n <= length P -> pborder P n 0.
Proof. intros. repeat split; [done..|]. intros; lia. Qed.

Lemma pborder_shrink P n k : pborder P (n + 1) (k + 1) -> 0 < n -> pborder P n k.
Proof.
  intros (Hk & Hn & H) Hpos. repeat split; [lia..|].
  intros t Ht. rewrite (H t) by lia. f_equal. lia.
Qed.

Lemma pborder_last P n k : pborder P (n + 1) (k + 1) -> P !! k = P !! n.
Proof. intros (Hk & Hn & H). rewrite (H k) by lia. f_equal. lia. Qed.

Lemma pborder_extend P n k :
  pborder P n k -> P !! k = P !! n -> n < length P -> pborder P (n + 1) (k + 1).
Proof.
  intros (Hk & Hn & H) Heq Hlt. repeat split; [lia..|].
  intros t Ht. destruct (decide (t = k)) as [->|].
  - rewrite Heq. f_equal. lia.
  - rewrite (H t) by lia. f_equal. lia.
Qed.

Lemma pborder_trans P n k k' : pborder P n k -> pborder P k k' -> pborder P n k'.
Proof.
  intros (Hk & Hn & H) (Hk' & _ & H'). repeat split; [lia..|].
  intros t Ht. rewrite (H' t) by lia. rewrite (H (k - k' + t)) by lia. f_equal. lia.
Qed.

Lemma pborder_restrict P n k k' :
  pborder P n k -> pborder P n k' -> k' < k -> pborder P k k'.
Proof.
  intros (Hk & Hn & H) (Hk' & _ & H') Hlt. repeat split; [lia..|].
  intros t Ht. rewrite (H (k - k' + t)) by lia. rewrite (H' t) by lia. f_equal. lia.
Qed.

(** The positional reading agrees with [border] on a prefix. *)
Lemma border_take P n k :
  n <= length P -> border (take n P) k <-> pborder P n k.
Proof.
  intros Hn. unfold border, pborder. rewrite length_take_le by done. split.
  - intros [Hk Heq]. repeat split; [done..|]. intros t Ht.
    assert (take k (take n P) !! t = drop (n - k) (take n P) !! t) as E by (by rewrite Heq).
    rewrite lookup_take_lt in E by done. rewrite lookup_take_lt in E by lia.
    rewrite lookup_drop in E. rewrite lookup_take_lt in E by lia. done.
  - intros (Hk & _ & H). split; [done|]. apply list_eq. intros t.
    rewrite lookup_drop. destruct (decide (t < k)).
    + rewrite !lookup_take_lt by lia. by apply H.
    + rewrite lookup_take_ge by lia. rewrite lookup_take_ge by lia. done.
Qed.

(** ** get_failure_array *)

Lemma failure_upto_snoc P f n k :
  failure_upto P f n -> pborder P (n + 1) k ->
  (forall k', pborder P (n + 1) k' -> k' <= k) -> failure_upto P (f ++ [k]) (n + 1).
Proof.
  intros [Hlen Hf] Hb Hmax. split; [rewrite length_app; simpl; lia|].
  intros t k0 Ht. apply lookup_app_Some in Ht as [Ht|[Hge Ht]]; [by apply Hf|].
  rewrite Hlen in Hge, Ht. destruct (t - n) as [|d] eqn:E; simpl in Ht; [|done].
  assert (t = n) as -> by lia. injection Ht as <-. done.
Qed.

Lemma failure_iter_ok P st :
  failure_inv P st ->
  match failure_iter P st with
  | Continue st' => failure_inv P st' /\ failure_variant P st' < failure_variant P st
  | Return f => failure_upto P f (length P)
  | Raise => False
  end.
Proof.
  destruct st as [[f i] j]. intros (Hj & Hf & Hb & Hmax). unfold failure_iter.
  destruct (Nat.ltb_spec j (length P)) as [Hlt|Hge].
  2:{ assert (j = length P) as -> by lia. done. }
  pose proof Hb as (Hij & _ & _).
  destruct (lookup_lt_is_Some_2 P i ltac:(lia)) as [a Ha].
  destruct (lookup_lt_is_Some_2 P j ltac:(lia)) as [b Hbj].
  rewrite Ha, Hbj. case_bool_decide as Hab.
  - (* the symbols agree: the border grows by one *)
    subst b. assert (pborder P (j + 1) (i + 1)) as Hnew
      by (apply pborder_extend; [done|congruence|done]).
    split; [|simpl; lia].
    split; [lia|]. split; [by apply failure_upto_snoc|]. split; [done|].
    intros k' Hk'. destruct k' as [|k']; [lia|].
      replace (S k') with (k' + 1) in Hk' by lia. replace (j + 1 + 1) with ((j + 1) + 1) in Hk' by lia.
      apply pborder_shrink in Hk'; [|lia]. apply Hmax in Hk'. lia.
  - destruct (Nat.ltb_spec 0 i) as [Hi|Hi].
    + (* fall back to the longest border of the current border *)
      destruct Hf as [Hlen Hf].
      destruct (lookup_lt_is_Some_2 f (i - 1) ltac:(lia)) as [k Hk]. rewrite Hk.
      destruct (Hf _ _ Hk) as [Hbk Hkmax]. replace (i - 1 + 1) with i in * by lia.
      pose proof Hbk as (Hki & _ & _).
      split; [|simpl; lia].
      split; [lia|]. split; [by split|]. split; [by eapply pborder_trans|].
      intros k' Hk'. destruct k' as [|k']; [lia|].
        replace (S k') with (k' + 1) in * by lia.
        pose proof (pborder_last _ _ _ Hk') as Hlast.
        pose proof (Hmax _ Hk') as Hle.
        apply pborder_shrink in Hk'; [|lia].
        assert (k' <> i) as Hne by (intros ->; congruence).
        assert (pborder P i k') as Hr by (eapply pborder_restrict; [exact Hb|exact Hk'|lia]).
        apply Hkmax in Hr. lia.
    + (* no border left: the entry is 0 *)
      assert (i = 0) as -> by lia.
      assert (forall k', pborder P (j + 1) k' -> k' <= 0) as Hz.
      { intros k' Hk'. pose proof (Hmax _ Hk') as Hle.
        destruct k' as [|k']; [lia|]. assert (k' = 0) as -> by lia.
        pose proof (pborder_last P j 0 Hk'). congruence. }
      assert (pborder P (j + 1) 0) as Hnew by (apply pborder_zero; lia).
      split; [|simpl; lia].
      split; [lia|]. split; [by apply failure_upto_snoc|]. split; [done|].
      intros k' Hk'. destruct k' as [|k']; [lia|].
        replace (S k') with (k' + 1) in Hk' by lia. replace (j + 1 + 1) with ((j + 1) + 1) in Hk' by lia.
        apply pborder_shrink in Hk'; [|lia]. apply Hz in Hk'. lia.
Qed.

Lemma failure_inv_start P : P <> [] -> failure_inv P ([0], 0, 1).
Proof.
  intros HP. assert (1 <= length P) by (destruct P; [done|simpl; lia]).
  split; [lia|]. split; [|split].
  - split; [done|]. intros [|t] k Hk; [|done]. injection Hk as <-.
    split; [apply pborder_zero; simpl; lia|]. intros k' (? & _); lia.
  - apply pborder_zero; lia.
  - intros k' (? & _); lia.
Qed.

Lemma get_failure_array_total P fuel :
  P <> [] -> 2 * length P <= fuel ->
  exists f, get_failure_array fuel P = Ok f /\ failure_upto P f (length P).
Proof.
  intros HP Hfuel.
  apply (while_total (failure_iter P) (failure_inv P) (failure_variant P)).
  - apply failure_iter_ok.
  - by apply failure_inv_start.
  - destruct P; [done|]. simpl in *. lia.
Qed.

(** ** kmp *)

Lemma kmp_iter_ok P T f st :
  failure_upto P f (length P) -> kmp_inv P T st ->
  match kmp_iter P T f st with
  | Continue st' => kmp_inv P T st' /\ kmp_variant T st' < kmp_variant T st
  | Return b => b = true <-> exists s, occurs_at P T s
  | Raise => False
  end.
Proof.
  destruct st as [i j]. intros [Hlen Hf] (Hij & Hj & Hm & Hno). unfold kmp_iter.
  destruct (Nat.ltb_spec i (length T)) as [Hlt|Hge].
  2:{ (* the text is exhausted *)
    split; [done|]. intros [s Hs]. exfalso.
    destruct (decide (s + j < i)) as [Hsj|Hsj]; [by apply (Hno s)|].
    pose proof (Hs (length P - 1) ltac:(lia)) as E.
    destruct (lookup_lt_is_Some_2 P (length P - 1) ltac:(lia)) as [x Hx].
    rewrite Hx in E. apply lookup_lt_Some in E. lia. }
  destruct (lookup_lt_is_Some_2 P j Hj) as [p Hp].
  destruct (lookup_lt_is_Some_2 T i Hlt) as [c Hc].
  rewrite Hp, Hc. case_bool_decide as Hpc.
  - subst c. destruct (Z.eqb_spec (Z.of_nat j) (Z.of_nat (length P) - 1)) as [Hend|Hend].
    + (* the last symbol of the pattern: found *)
      split; [|done]. intros _. exists (i - j). intros t Ht.
      destruct (decide (t < j)) as [Htj|Htj]; [by rewrite Hm|].
      assert (t = j) as -> by lia. replace (i - j + j) with i by lia. congruence.
    + split; [|simpl; lia]. split; [lia|]. split; [lia|]. split.
      * intros t Ht. replace (i + 1 - (j + 1) + t) with (i - j + t) by lia.
        destruct (decide (t < j)) as [Htj|Htj]; [by apply Hm|].
        assert (t = j) as -> by lia. replace (i - j + j) with i by lia. congruence.
      * intros s Hs. apply Hno. lia.
  - destruct (Nat.ltb_spec 0 j) as [Hpos|Hz].
    + (* fall back in the pattern *)
      destruct (lookup_lt_is_Some_2 f (j - 1) ltac:(lia)) as [k Hk]. rewrite Hk.
      destruct (Hf _ _ Hk) as [Hbk Hkmax]. replace (j - 1 + 1) with j in * by lia.
      pose proof Hbk as (Hkj & _ & Hbk').
      split; [|simpl; lia]. split; [lia|]. split; [lia|]. split.
      * intros t Ht. rewrite Hbk' by done. rewrite Hm by lia. f_equal. lia.
      * intros s Hs Hocc.
        destruct (decide (s + j < i)) as [Hsj|Hsj]; [by apply (Hno s)|].
        destruct (decide (s + j = i)) as [Heq|Hne].
        { pose proof (Hocc j Hj) as E. rewrite Heq in E. congruence. }
        assert (pborder P j (i - s)) as Hb'.
        { split; [lia|]. split; [lia|]. intros t Ht.
          rewrite <- (Hocc t) by lia. rewrite Hm by lia. f_equal. lia. }
        apply Hkmax in Hb'. lia.
    + (* no fall back possible: next symbol of the text *)
      assert (j = 0) as -> by lia.
      split; [|simpl; lia]. split; [lia|]. split; [lia|]. split; [intros; lia|].
      intros s Hs Hocc. destruct (decide (s + 0 < i)) as [Hsj|Hsj]; [by apply (Hno s)|].
      assert (s = i) as -> by lia. pose proof (Hocc 0 Hj) as E.
      replace (i + 0) with i in E by lia. congruence.
Qed.

Lemma kmp_inv_start P T : P <> [] -> kmp_inv P T (0, 0).
Proof.
  intros HP. split; [lia|]. split; [destruct P; [done|simpl; lia]|].
  split; intros; lia.
Qed.

Lemma occurs_at_iff P T : (exists s, occurs_at P T s) <-> occurs P T.
Proof.
  split.
  - intros [s Hs]. destruct P as [|p P'] eqn:EP; [by exists [], T|]. rewrite <- EP in *.
    assert (0 < length P) by (rewrite EP; simpl; lia).
    assert (s + length P <= length T) as Hfit.
    { pose proof (Hs (length P - 1) ltac:(lia)) as E.
      destruct (lookup_lt_is_Some_2 P (length P - 1) ltac:(lia)) as [x Hx].
      rewrite Hx in E. apply lookup_lt_Some in E. lia. }
    exists (take s T), (drop (s + length P) T).
    assert (take (length P) (drop s T) = P) as E.
    { apply list_eq. intros t. destruct (decide (t < length P)).
      - rewrite lookup_take_lt by done. rewrite lookup_drop. by apply Hs.
      - rewrite lookup_take_ge by lia. symmetry. apply lookup_ge_None. lia. }
    rewrite <- E at 1. rewrite <- drop_drop. rewrite take_drop. by rewrite take_drop.
  - intros (l1 & l2 & ->). exists (length l1). intros t Ht.
    rewrite lookup_app_r by lia. replace (length l1 + t - length l1) with t by lia.
    by rewrite lookup_app_l.
Qed.

Lemma starts_with_iff P T : starts_with P T = true <-> exists l2, T = P ++ l2.
Proof.
  revert T. induction P as [|p P IH]; intros T; simpl.
  - split; [by exists T|done].
  - destruct T as [|c T].
    + split; [done|]. by intros [l2 ?].
    + rewrite andb_true_iff, bool_decide_eq_true, IH. split.
      * intros [-> [l2 ->]]. by exists l2.
      * intros [l2 E]. injection E as -> ->. eauto.
Qed.

Lemma naive_scan_iff P T : naive_scan P T = true <-> occurs P T.
Proof.
  induction T as [|c T IH]; simpl; rewrite orb_true_iff, starts_with_iff.
  - split.
    + intros [[l2 ->]|?]; [|done]. by exists [], l2.
    + intros (l1 & l2 & E). left. destruct l1; [by exists l2|done].
  - rewrite IH. split.
    + intros [[l2 ->]|(l1 & l2 & ->)]; [by exists [], l2|by exists (c :: l1), l2].
    + intros (l1 & l2 & E). destruct l1 as [|x l1]; [left; by exists l2|].
      right. injection E as -> ->. by exists l1, l2.
Qed.

Lemma kmp_total P T fuel :
  P <> [] -> enough P T <= fuel ->
  exists f b, get_failure_array fuel P = Ok f /\ failure_upto P f (length P) /\
    while fuel (kmp_iter P T f) (0, 0) = Ok b /\ kmp fuel P T = Ok b /\
    (b = true <-> occurs P T).
Proof.
  intros HP Hfuel. unfold enough in Hfuel.
  destruct (get_failure_array_total P fuel HP ltac:(lia)) as (f & Hf & Hfok).
  destruct (while_total (kmp_iter P T f) (kmp_inv P T) (kmp_variant T)
              (fun b => b = true <-> exists s, occurs_at P T s)
              (fun st => kmp_iter_ok P T f st Hfok) fuel (0, 0))
    as (b & Hb & Hpost).
  - by apply kmp_inv_start.
  - simpl. lia.
  - exists f, b. unfold kmp. rewrite Hf. simpl. rewrite <- occurs_at_iff. done.
Qed.

(** ** The search: results *)

(** C1: for every text and every non-empty pattern, [kmp] returns (with
    the stated fuel or more) a boolean that is [true] exactly when the
    pattern is a contiguous part of the text, and that boolean is the one
    the naive scan computes. *)
Theorem kmp_agrees_with_naive_scan (P T : str) (fuel : nat) :
  P <> [] -> enough P T <= fuel ->
  exists b, kmp fuel P T = Ok b /\ (b = true <-> occurs P T) /\ b = naive_scan P T.
Proof.
  intros HP Hfuel.
  destruct (kmp_total P T fuel HP Hfuel) as (f & b & _ & _ & _ & Hk & Hb).
  exists b. split; [done|]. split; [done|].
  pose proof (naive_scan_iff P T) as Hn.
  destruct b, (naive_scan P T); try done.
  - destruct Hb as [Hb _]. specialize (Hb eq_refl). by apply Hn in Hb.
  - destruct Hn as [Hn _]. specialize (Hn eq_refl). by apply Hb in Hn.
Qed.

Lemma kmp_agrees_with_naive_scan_witness :
  py "ab" <> [] /\ enough (py "ab") (py "xxab") <= 14 /\
  exists b, kmp 14 (py "ab") (py "xxab") = Ok b /\
    (b = true <-> occurs (py "ab") (py "xxab")) /\ b = naive_scan (py "ab") (py "xxab").
Proof.
  split; [discriminate|]. split; [vm_compute; lia|].
  apply (kmp_agrees_with_naive_scan (py "ab") (py "xxab") 14); [discriminate|vm_compute; lia].
Defined.

(** C4, as the code has it: neither function checks for an empty pattern.
    [get_failure_array] returns [[0]] for it; [kmp] returns [False] on the
    empty text and raises [IndexError] at [pattern[0]] on any other text. *)
Theorem empty_pattern_not_rejected (fuel : nat) (c : char) (T : str) :
  get_failure_array (S fuel) [] = Ok [0] /\
  kmp (S fuel) [] [] = Ok false /\
  kmp (S fuel) [] (c :: T) = IndexError.
Proof. done. Qed.

(** C4, the claim at a concrete input: the empty pattern is accepted by
    [get_failure_array], and by [kmp] on the empty text. *)
Lemma empty_pattern_counterexample :
  get_failure_array 1 (py "") = Ok [0] /\ kmp 1 (py "") (py "") = Ok false.
Proof. done. Qed.

(** C5: a non-empty pattern that is longer than the text is not found, and
    no error is raised; in particular nothing is found in the empty text. *)
Theorem kmp_pattern_longer_than_text (P T : str) (fuel : nat) :
  P <> [] -> enough P T <= fuel ->
  (length T < length P -> kmp fuel P T = Ok false) /\
  (T = [] -> kmp fuel P T = Ok false).
Proof.
  intros HP Hfuel.
  destruct (kmp_total P T fuel HP Hfuel) as (f & b & _ & _ & _ & Hk & Hb).
  assert (length T < length P -> kmp fuel P T = Ok false) as Hlong.
  { intros Hlen. destruct b; [|done]. destruct Hb as [Hb _].
    destruct (Hb eq_refl) as (l1 & l2 & ->). rewrite !length_app in Hlen. lia. }
  split; [done|]. intros ->. apply Hlong. destruct P; [done|simpl; lia].
Qed.

Lemma kmp_pattern_longer_than_text_witness :
  (length (py "ab") < length (py "abc") -> kmp 12 (py "abc") (py "ab") = Ok false) /\
  (py "ab" = [] -> kmp 12 (py "abc") (py "ab") = Ok false).
Proof.
  apply (kmp_pattern_longer_than_text (py "abc") (py "ab") 12); [discriminate|vm_compute; lia].
Defined.

(** C6: for a non-empty pattern, [get_failure_array] returns a table as
    long as the pattern, whose first entry is 0 and whose entry at [j] is
    at most [j] and is the length of the longest proper prefix of
    [pattern[0..=j]] that is also a suffix of it. *)
Theorem get_failure_array_spec (P : str) (fuel : nat) :
  P <> [] -> 2 * length P <= fuel ->
  exists f, get_failure_array fuel P = Ok f /\
    length f = length P /\
    f !! 0 = Some 0 /\
    forall j k, f !! j = Some k -> k <= j /\ longest_border (take (j + 1) P) k.
Proof.
  intros HP Hfuel.
  destruct (get_failure_array_total P fuel HP Hfuel) as (f & Hf & Hlen & Hok).
  exists f. split; [done|]. split; [done|].
  assert (forall j k, f !! j = Some k -> k <= j /\ longest_border (take (j + 1) P) k) as H.
  { intros j k Hjk. pose proof (lookup_lt_Some _ _ _ Hjk) as Hj.
    destruct (Hok j k Hjk) as [Hb Hmax]. split; [destruct Hb; lia|]. split.
    - apply border_take; [lia|done].
    - intros k' Hk'. apply Hmax. apply border_take in Hk'; [done|lia]. }
  split; [|done].
  destruct (lookup_lt_is_Some_2 f 0) as [k Hk]; [destruct P; [done|simpl in *; lia]|].
  destruct (H 0 k Hk) as [Hle _]. by replace k with 0 in Hk by lia.
Qed.

Lemma get_failure_array_spec_witness :
  exists f, get_failure_array 18 (py "aabaabaaa") = Ok f /\
    length f = length (py "aabaabaaa") /\
    f !! 0 = Some 0 /\
    forall j k, f !! j = Some k -> k <= j /\ longest_border (take (j + 1) (py "aabaabaaa")) k.
Proof.
  apply (get_failure_array_spec (py "aabaabaaa") 18); [discriminate|vm_compute; lia].
Defined.

(** C10: for a non-empty pattern the failure table is computed, and in
    every state [(i, j)] that the scan loop of [kmp] goes through,
    [j <= i <= len(text)] and [j < len(pattern)]; the accesses
    [pattern[j]], [text[i]] and [failure[j - 1]] made there are in bounds,
    the pass through the loop does not raise, and [kmp] returns a
    boolean, whatever the lengths of pattern and text. *)
Theorem kmp_scan_in_bounds (P T : str) (fuel : nat) :
  P <> [] -> enough P T <= fuel ->
  exists f, get_failure_array fuel P = Ok f /\
    (forall i j, visits (kmp_iter P T f) (0, 0) (i, j) ->
       j <= i <= length T /\ j < length P /\
       (i < length T -> is_Some (P !! j) /\ is_Some (T !! i)) /\
       (0 < j -> is_Some (f !! (j - 1))) /\
       kmp_iter P T f (i, j) <> Raise) /\
    exists b, kmp fuel P T = Ok b.
Proof.
  intros HP Hfuel.
  destruct (kmp_total P T fuel HP Hfuel) as (f & b & Hf & Hfok & _ & Hk & _).
  exists f. split; [done|]. split; [|by exists b].
  intros i j Hv.
  assert (kmp_inv P T (i, j)) as Hinv.
  { apply (visits_inv (kmp_iter P T f) (kmp_inv P T) (kmp_variant T)
             (fun b => b = true <-> exists s, occurs_at P T s)
             (fun st => kmp_iter_ok P T f st Hfok) (0, 0)); [|done].
    by apply kmp_inv_start. }
  pose proof (kmp_iter_ok P T f (i, j) Hfok Hinv) as Hstep.
  destruct Hinv as (Hij & Hj & _). destruct Hfok as [Hlen _].
  split; [done|]. split; [done|]. split; [|split].
  - intros Hi. split; apply lookup_lt_is_Some_2; done.
  - intros Hpos. apply lookup_lt_is_Some_2. lia.
  - intros E. by rewrite E in Hstep.
Qed.

Lemma kmp_scan_in_bounds_witness :
  exists f, get_failure_array 12 (py "abc") = Ok f /\
    (forall i j, visits (kmp_iter (py "abc") (py "ab") f) (0, 0) (i, j) ->
       j <= i <= length (py "ab") /\ j < length (py "abc") /\
       (i < length (py "ab") -> is_Some (py "abc" !! j) /\ is_Some (py "ab" !! i)) /\
       (0 < j -> is_Some (f !! (j - 1))) /\
       kmp_iter (py "abc") (py "ab") f (i, j) <> Raise) /\
    exists b, kmp 12 (py "abc") (py "ab") = Ok b.
Proof.
  apply (kmp_scan_in_bounds (py "abc") (py "ab") 12); [discriminate|vm_compute; lia].
Defined.

(** ** Tables *)

Section Tables.

Context {A : Type}.
Implicit Types (t : list (list A)) (v : A).

Lemma get2_total t m n i j :
  dims t m n -> i <= m -> j <= n -> exists v, get2 t i j = Ok v.
Proof.
  intros [Hlen Hrows] Hi Hj. unfold get2, index.
  destruct (lookup_lt_is_Some_2 t i ltac:(lia)) as [row Hrow]. rewrite Hrow. simpl.
  destruct (lookup_lt_is_Some_2 row j) as [v Hv]; [rewrite (Hrows _ _ Hrow); lia|].
  rewrite Hv. eauto.
Qed.

Lemma set2_total t m n i j v :
  dims t m n -> i <= m -> j <= n -> exists t', set2 t i j v = Ok t'.
Proof.
  intros [Hlen Hrows] Hi Hj. unfold set2, index.
  destruct (lookup_lt_is_Some_2 t i ltac:(lia)) as [row Hrow]. rewrite Hrow. simpl.
  destruct (Nat.ltb_spec j (length row)) as [?|Hge]; [eauto|].
  rewrite (Hrows _ _ Hrow) in Hge. lia.
Qed.

Lemma set2_dims t m n i j v t' : dims t m n -> set2 t i j v = Ok t' -> dims t' m n.
Proof.
  intros [Hlen Hrows]. unfold set2, index.
  destruct (t !! i) as [row|] eqn:Hrow; [simpl|done].
  destruct (j <? length row); [|done]. intros [= <-]. split.
  - by rewrite length_insert.
  - intros i' row' H'. destruct (decide (i = i')) as [<-|Hne].
    + rewrite list_lookup_insert_eq in H' by (by eapply lookup_lt_Some).
      injection H' as <-. rewrite length_insert. by eapply Hrows.
    + rewrite list_lookup_insert_ne in H' by done. by eapply Hrows.
Qed.

Lemma get2_set2_eq t i j v t' : set2 t i j v = Ok t' -> get2 t' i j = Ok v.
Proof.
  unfold set2, get2, index.
  destruct (t !! i) as [row|] eqn:Hrow; [simpl|done].
  destruct (Nat.ltb_spec j (length row)) as [Hj|]; [|done]. intros [= <-].
  rewrite list_lookup_insert_eq by (by eapply lookup_lt_Some). simpl.
  by rewrite list_lookup_insert_eq.
Qed.

Lemma get2_set2_ne t i j v t' x y :
  set2 t i j v = Ok t' -> ~ (x = i /\ y = j) -> get2 t' x y = get2 t x y.
Proof.
  unfold set2, get2, index.
  destruct (t !! i) as [row|] eqn:Hrow; [simpl|done].
  destruct (Nat.ltb_spec j (length row)) as [Hj|]; [|done]. intros [= <-] Hne.
  destruct (decide (x = i)) as [->|Hx].
  - rewrite list_lookup_insert_eq by (by eapply lookup_lt_Some). rewrite Hrow. simpl.
    rewrite list_lookup_insert_ne by (intros ->; tauto). done.
  - by rewrite list_lookup_insert_ne.
Qed.

Lemma dims_replicate m n v : dims (replicate (m + 1) (replicate (n + 1) v)) m n.
Proof.
  split; [by rewrite length_replicate|].
  intros i row [-> _]%lookup_replicate. by rewrite length_replicate.
Qed.

Lemma get2_replicate m n v i j :
  i <= m -> j <= n -> get2 (replicate (m + 1) (replicate (n + 1) v)) i j = Ok v.
Proof.
  intros Hi Hj. unfold get2, index. rewrite lookup_replicate_2 by lia. simpl.
  by rewrite lookup_replicate_2 by lia.
Qed.

End Tables.

(** A [for] loop over [range(start, start + len)] with an invariant. *)
Lemma for_each_range {St : Type} (Inv : nat -> St -> Prop) body len :
  forall start s,
  Inv start s ->
  (forall k s, start <= k < start + len -> Inv k s ->
     exists s', body k s = Ok s' /\ Inv (k + 1) s') ->
  exists s', for_each (seq start len) body s = Ok s' /\ Inv (start + len) s'.
Proof.
  induction len as [|len IH]; intros start s H0 Hstep; simpl.
  - exists s. by replace (start + 0) with start by lia.
  - destruct (Hstep start s ltac:(lia) H0) as (s1 & E1 & H1). rewrite E1. simpl.
    destruct (IH (S start) s1) as (s' & E' & H').
    + by replace (S start) with (start + 1) by lia.
    + intros k s2 Hk. apply Hstep. lia.
    + exists s'. split; [done|]. by replace (start + S len) with (S start + len) by lia.
Qed.

(** ** compute_transform_tables *)

Lemma set2_written {A : Type} m n (t : list (list A)) i j v :
  dims t m n -> i <= m -> j <= n -> exists t', set2 t i j v = Ok t' /\ written m n t t' i j v.
Proof.
  intros Hd Hi Hj. destruct (set2_total t m n i j v Hd Hi Hj) as [t' E].
  exists t'. split; [done|]. split; [by eapply set2_dims|].
  split; [by eapply get2_set2_eq|]. intros x y Hxy. by eapply get2_set2_ne.
Qed.

Lemma written_twice {A : Type} m n (t t1 t2 : list (list A)) i j v w :
  written m n t t1 i j v -> written m n t1 t2 i j w -> written m n t t2 i j w.
Proof.
  intros (_ & _ & F1) (D2 & G2 & F2). split; [done|]. split; [done|].
  intros x y Hxy. rewrite F2 by done. by apply F1.
Qed.

Section Filling.

Variables copy_cost replace_cost delete_cost insert_cost : Z.
Variables source destination : str.

Local Abbreviation m := (length source).
Local Abbreviation n := (length destination).

Local Abbreviation choose := (choose copy_cost replace_cost delete_cost insert_cost).
Local Abbreviation cell_ok :=
  (cell_ok copy_cost replace_cost delete_cost insert_cost source destination).
Local Abbreviation tables_inv :=
  (tables_inv copy_cost replace_cost delete_cost insert_cost source destination).
Local Abbreviation tables_ok :=
  (tables_ok copy_cost replace_cost delete_cost insert_cost source destination).

Lemma cell_ok_frame costs ops costs' ops' i j :
  (forall x y, x <= i -> y <= j -> get2 costs' x y = get2 costs x y) ->
  (forall x y, x <= i -> y <= j -> get2 ops' x y = get2 ops x y) ->
  cell_ok costs ops i j -> cell_ok costs' ops' i j.
Proof.
  intros Hc Ho H. destruct i as [|i], j as [|j]; simpl in *;
    rewrite ?Hc, ?Ho by lia; exact H.
Qed.

Lemma tables_inv_write (Done Done' : nat -> nat -> Prop) costs ops costs' ops' i j :
  tables_inv Done (costs, ops) ->
  dims costs' m n -> dims ops' m n ->
  (forall x y, ~ (x = i /\ y = j) -> get2 costs' x y = get2 costs x y) ->
  (forall x y, ~ (x = i /\ y = j) -> get2 ops' x y = get2 ops x y) ->
  (forall i' j', i' <= m -> j' <= n -> Done' i' j' ->
     (i' = i /\ j' = j) \/ (Done i' j' /\ ~ (i <= i' /\ j <= j'))) ->
  cell_ok costs' ops' i j ->
  tables_inv Done' (costs', ops').
Proof.
  intros (_ & _ & Hcells) Dc Do Fc Fo Hdone Hnew. split; [done|]. split; [done|].
  intros i' j' Hi' Hj' Hd. destruct (Hdone i' j' Hi' Hj' Hd) as [[-> ->]|[Hold Hbefore]]; [done|].
  apply (cell_ok_frame costs ops).
  - intros x y Hx Hy. apply Fc. lia.
  - intros x y Hx Hy. apply Fo. lia.
  - by apply Hcells.
Qed.

Lemma init_column_ok k tables :
  1 <= k <= m -> tables_inv (done_column k) tables ->
  exists tables', init_column delete_cost source k tables = Ok tables' /\
    tables_inv (done_column (k + 1)) tables'.
Proof.
  destruct tables as [costs ops]. intros Hk Hinv. pose proof Hinv as (Dc & Do & _).
  unfold init_column.
  destruct (set2_written m n costs k 0 (Z.of_nat k * delete_cost)%Z Dc) as (costs' & -> & Dc' & Gc & Fc);
    [lia..|]. simpl.
  destruct (lookup_lt_is_Some_2 source (k - 1) ltac:(lia)) as [a Ha].
  unfold index. rewrite Ha. simpl.
  destruct (set2_written m n ops k 0 (op_delete a) Do) as (ops' & -> & Do' & Go & Fo);
    [lia..|]. simpl.
  eexists. split; [done|].
  apply (tables_inv_write (done_column k) _ costs ops costs' ops' k 0); try done.
  - intros i' j' _ _ [-> Hlt]. unfold done_column.
    destruct (decide (i' = k)); [by left|right]. lia.
  - destruct k as [|k']; [lia|]. simpl. exists a.
    replace (S k' - 1) with k' in Ha by lia. done.
Qed.

Lemma init_row_ok k tables :
  1 <= k <= n -> tables_inv (done_row k) tables ->
  exists tables', init_row insert_cost destination k tables = Ok tables' /\
    tables_inv (done_row (k + 1)) tables'.
Proof.
  destruct tables as [costs ops]. intros Hk Hinv. pose proof Hinv as (Dc & Do & _).
  unfold init_row.
  destruct (set2_written m n costs 0 k (Z.of_nat k * insert_cost)%Z Dc) as (costs' & -> & Dc' & Gc & Fc);
    [lia..|]. simpl.
  destruct (lookup_lt_is_Some_2 destination (k - 1) ltac:(lia)) as [b Hb].
  unfold index. rewrite Hb. simpl.
  destruct (set2_written m n ops 0 k (op_insert b) Do) as (ops' & -> & Do' & Go & Fo);
    [lia..|]. simpl.
  eexists. split; [done|].
  apply (tables_inv_write (done_row k) _ costs ops costs' ops' 0 k); try done.
  - intros i' j' _ _ Hd. unfold done_row in *.
    destruct (decide (i' = 0 /\ j' = k)); [by left|right]. lia.
  - destruct k as [|k']; [lia|]. simpl. exists b.
    replace (S k' - 1) with k' in Hb by lia. done.
Qed.

Lemma fill_cell_ok i j tables :
  1 <= i <= m -> 1 <= j <= n -> tables_inv (done_cells i j) tables ->
  exists tables',
    fill_cell copy_cost replace_cost delete_cost insert_cost source destination i j tables
      = Ok tables' /\
    tables_inv (done_cells i (j + 1)) tables'.
Proof.
  destruct tables as [costs ops]. intros Hi Hj Hinv. pose proof Hinv as (Dc & Do & _).
  destruct (lookup_lt_is_Some_2 source (i - 1) ltac:(lia)) as [a Ha].
  destruct (lookup_lt_is_Some_2 destination (j - 1) ltac:(lia)) as [b Hb].
  destruct (get2_total costs m n (i - 1) (j - 1) Dc) as [diag Hdiag]; [lia..|].
  destruct (get2_total costs m n (i - 1) j Dc) as [vert Hvert]; [lia..|].
  destruct (get2_total costs m n i (j - 1) Dc) as [horiz Hhoriz]; [lia..|].
  assert (exists costs' ops',
    fill_cell copy_cost replace_cost delete_cost insert_cost source destination i j (costs, ops)
      = Ok (costs', ops') /\
    written m n costs costs' i j (choose a b diag vert horiz).1 /\
    written m n ops ops' i j (choose a b diag vert horiz).2) as (costs' & ops' & E & Wc & Wo).
  { unfold fill_cell, choose, index. rewrite Ha, Hb. simpl. rewrite Hdiag. simpl.
    set (c0 := if bool_decide (a = b) then (diag + copy_cost)%Z else (diag + replace_cost)%Z).
    set (o0 := if bool_decide (a = b) then op_copy a else op_replace a b).
    destruct (set2_written m n costs i j c0 Dc) as (costs1 & E1 & W1); [lia..|].
    destruct (set2_written m n ops i j o0 Do) as (ops1 & F1 & V1); [lia..|].
    pose proof W1 as (Dc1 & G1 & R1). pose proof V1 as (Do1 & _ & _).
    assert (get2 costs1 (i - 1) j = Ok vert) as Hvert1 by (rewrite R1 by lia; done).
    assert (get2 costs1 i (j - 1) = Ok horiz) as Hhoriz1 by (rewrite R1 by lia; done).
    match goal with
    | |- context [bind (if bool_decide (a = b) then ?x else ?y) _] =>
        assert ((if bool_decide (a = b) then x else y) = Ok (costs1, ops1)) as ->
    end.
    { revert E1 F1. subst c0 o0. case_bool_decide; intros -> ->; done. }
    simpl. rewrite Hvert1, G1. simpl.
    destruct (Z.ltb_spec (vert + delete_cost) c0) as [Hv|Hv]; simpl.
    - (* the deletion is strictly cheaper *)
      destruct (set2_written m n costs1 i j (vert + delete_cost)%Z Dc1) as (costs2 & -> & W2); [lia..|].
      destruct (set2_written m n ops1 i j (op_delete a) Do1) as (ops2 & -> & V2); [lia..|].
      simpl. pose proof W2 as (Dc2 & G2 & R2). pose proof V2 as (Do2 & _ & _).
      assert (get2 costs2 i (j - 1) = Ok horiz) as Hhoriz2 by (rewrite R2 by lia; done).
      rewrite Hhoriz2, G2. simpl.
      destruct (Z.ltb_spec (horiz + insert_cost) (vert + delete_cost)) as [Hh|Hh]; simpl.
      + destruct (set2_written m n costs2 i j (horiz + insert_cost)%Z Dc2) as (costs3 & -> & W3); [lia..|].
        destruct (set2_written m n ops2 i j (op_insert b) Do2) as (ops3 & -> & V3); [lia..|].
        simpl. exists costs3, ops3. split; [done|].
        split; (eapply written_twice; [|eassumption]); eapply written_twice; eassumption.
      + exists costs2, ops2. split; [done|].
        split; eapply written_twice; eassumption.
    - rewrite Hhoriz1, G1. simpl.
      destruct (Z.ltb_spec (horiz + insert_cost) c0) as [Hh|Hh]; simpl.
      + destruct (set2_written m n costs1 i j (horiz + insert_cost)%Z Dc1) as (costs3 & -> & W3); [lia..|].
        destruct (set2_written m n ops1 i j (op_insert b) Do1) as (ops3 & -> & V3); [lia..|].
        simpl. exists costs3, ops3. split; [done|].
        split; eapply written_twice; eassumption.
      + exists costs1, ops1. done. }
  exists (costs', ops'). split; [done|].
  destruct Wc as (Dc' & Gc & Fc), Wo as (Do' & Go & Fo).
  apply (tables_inv_write (done_cells i j) _ costs ops costs' ops' i j); try done.
  - intros i' j' _ _ Hd. unfold done_cells in *.
    destruct (decide (i' = i /\ j' = j)); [by left|right]. lia.
  - destruct i as [|i']; [lia|]. destruct j as [|j']; [lia|]. simpl.
    replace (S i' - 1) with i' in * by lia. replace (S j' - 1) with j' in * by lia.
    exists a, b, diag, vert, horiz.
    rewrite Fc by lia. rewrite Fc by lia. rewrite Fc by lia. done.
Qed.

Lemma tables_inv_weaken (Done Done' : nat -> nat -> Prop) tables :
  (forall i j, i <= m -> j <= n -> Done' i j -> Done i j) ->
  tables_inv Done tables -> tables_inv Done' tables.
Proof.
  destruct tables as [costs ops]. intros Hsub (Dc & Do & Hcells).
  split; [done|]. split; [done|]. intros i j Hi Hj Hd. apply Hcells; auto.
Qed.

Lemma compute_transform_tables_ok :
  exists costs ops,
    compute_transform_tables copy_cost replace_cost delete_cost insert_cost source destination
      = Ok (costs, ops) /\
    tables_ok costs ops.
Proof.
  unfold compute_transform_tables.
  (* first loop *)
  destruct (for_each_range (fun k => tables_inv (done_column k))
              (init_column delete_cost source) m 1
              (replicate (m + 1) (replicate (n + 1) 0%Z),
               replicate (m + 1) (replicate (n + 1) (py "0"))))
    as (t1 & -> & H1).
  { split; [apply dims_replicate|]. split; [apply dims_replicate|].
    intros i j Hi Hj [-> Hlt]. assert (i = 0) as -> by lia. simpl.
    split; apply get2_replicate; lia. }
  { intros k t Hk. apply init_column_ok. lia. }
  simpl.
  (* second loop *)
  destruct (for_each_range (fun k => tables_inv (done_row k))
              (init_row insert_cost destination) n 1 t1)
    as (t2 & -> & H2).
  { revert H1. apply tables_inv_weaken. unfold done_row, done_column. lia. }
  { intros k t Hk. apply init_row_ok. lia. }
  simpl.
  (* the loop nest *)
  destruct (for_each_range (fun k => tables_inv (done_cells k 1))
              (fun i => for_each (seq 1 n)
                 (fill_cell copy_cost replace_cost delete_cost insert_cost source destination i))
              m 1 t2)
    as ([costs ops] & -> & H3).
  { revert H2. apply tables_inv_weaken. unfold done_row, done_cells. lia. }
  { intros k t Hk Hinv.
    destruct (for_each_range (fun l => tables_inv (done_cells k l))
                (fill_cell copy_cost replace_cost delete_cost insert_cost source destination k)
                n 1 t Hinv)
      as (t' & -> & H').
    - intros l t0 Hl. apply fill_cell_ok; lia.
    - exists t'. split; [done|]. revert H'. apply tables_inv_weaken.
      unfold done_cells. lia. }
  exists costs, ops. split; [done|]. destruct H3 as (Dc & Do & Hcells).
  split; [done|]. split; [done|]. intros i j Hi Hj. apply Hcells; [done..|].
  unfold done_cells. lia.
Qed.

End Filling.

(** ** assemble_transformation on the tables of compute_transform_tables *)

Lemma py_index_nat {A : Type} (l : list A) (k : nat) : py_index l (Z.of_nat k) = index l k.
Proof.
  unfold py_index. destruct (Z.leb_spec 0 (Z.of_nat k)); [|lia]. by rewrite Nat2Z.id.
Qed.

Lemma py_index_head {A : Type} (x : A) (l : list A) : py_index (x :: l) 0 = Ok x.
Proof. reflexivity. Qed.

Lemma get2_rows {A : Type} (t : list (list A)) i j v :
  get2 t i j = Ok v -> exists row, index t i = Ok row /\ index row j = Ok v.
Proof. unfold get2. destruct (index t i) as [row| |]; simpl; [eauto|done..]. Qed.

Lemma apply_script_snoc script op st :
  apply_script (script ++ [op]) st =
  match apply_script script st with
  | Some st' => apply_op op st'
  | None => None
  end.
Proof.
  revert st. induction script as [|op' script IH]; intros st; simpl.
  - by destruct (apply_op op st).
  - destruct (apply_op op' st); [apply IH|done].
Qed.

Lemma script_cost_snoc cc rc dc ic script op :
  script_cost cc rc dc ic (script ++ [op])
  = (script_cost cc rc dc ic script + op_cost cc rc dc ic op)%Z.
Proof. induction script as [|op' script IH]; simpl; [lia|]. rewrite IH. lia. Qed.

Section Assemble.

Variables copy_cost replace_cost delete_cost insert_cost : Z.
Variables source destination : str.
Variables (costs : list (list Z)) (ops : list (list str)).

Local Abbreviation m := (length source).
Local Abbreviation n := (length destination).

Hypothesis tables :
  tables_ok copy_cost replace_cost delete_cost insert_cost source destination costs ops.

Local Abbreviation cell_step :=
  (cell_step copy_cost replace_cost delete_cost insert_cost source destination).

Lemma origin_cost : get2 costs 0 0 = Ok 0%Z /\ get2 ops 0 0 = Ok (py "0").
Proof. destruct tables as (_ & _ & H). apply (H 0 0); lia. Qed.

Lemma column_cost i : i <= m -> get2 costs i 0 = Ok (Z.of_nat i * delete_cost)%Z.
Proof.
  intros Hi. destruct tables as (_ & _ & H). specialize (H i 0 Hi ltac:(lia)).
  destruct i as [|i]; simpl in H; [tauto|]. destruct H as (a & _ & H & _). done.
Qed.

Lemma row_cost j : j <= n -> get2 costs 0 j = Ok (Z.of_nat j * insert_cost)%Z.
Proof.
  intros Hj. destruct tables as (_ & _ & H). specialize (H 0 j ltac:(lia) Hj).
  destruct j as [|j]; simpl in H; [tauto|]. destruct H as (b & _ & H & _). done.
Qed.

Lemma cell_step_exists i j :
  i <= m -> j <= n -> 0 < i + j ->
  exists op i' j' w c c',
    cell_step i j op i' j' w /\ get2 ops i j = Ok op /\
    get2 costs i j = Ok c /\ get2 costs i' j' = Ok c' /\ c = (c' + w)%Z.
Proof.
  intros Hi Hj Hpos. pose proof tables as (_ & _ & H). specialize (H i j Hi Hj).
  destruct i as [|i], j as [|j]; simpl in H; [lia|..].
  - destruct H as (b & Hb & Hc & Ho).
    exists (op_insert b), 0, j, insert_cost. eexists _, _.
    split; [by constructor|]. split; [done|]. split; [done|].
    split; [apply row_cost; lia|]. lia.
  - destruct H as (a & Ha & Hc & Ho).
    exists (op_delete a), i, 0, delete_cost. eexists _, _.
    split; [by constructor|]. split; [done|]. split; [done|].
    split; [apply column_cost; lia|]. lia.
  - destruct H as (a & b & diag & vert & horiz & Ha & Hb & Hd & Hv & Hh & Hc & Ho).
    revert Hc Ho. unfold choose.
    destruct (Z.ltb_spec (vert + delete_cost)
                (if bool_decide (a = b) then diag + copy_cost else diag + replace_cost)%Z)
      as [Hlt|Hge]; simpl.
    + destruct (Z.ltb_spec (horiz + insert_cost) (vert + delete_cost)) as [Hlt'|Hge']; simpl;
        intros Hc Ho.
      * exists (op_insert b), (S i), j, insert_cost. eexists _, _.
        split; [by constructor|]. done.
      * exists (op_delete a), i, (S j), delete_cost. eexists _, _.
        split; [by constructor|]. done.
    + destruct (Z.ltb_spec (horiz + insert_cost)
                (if bool_decide (a = b) then diag + copy_cost else diag + replace_cost)%Z)
        as [Hlt'|Hge']; simpl; intros Hc Ho.
      * exists (op_insert b), (S i), j, insert_cost. eexists _, _.
        split; [by constructor|]. done.
      * revert Hc Ho. case_bool_decide as Hab; intros Hc Ho.
        -- subst b. exists (op_copy a), i, j, copy_cost. eexists _, _.
           split; [by constructor|]. done.
        -- exists (op_replace a b), i, j, replace_cost. eexists _, _.
           split; [by constructor|]. done.
Qed.

Lemma assemble_unfold i j op i' j' w fuel :
  cell_step i j op i' j' w -> get2 ops i j = Ok op ->
  callee ops (Z.of_nat i) (Z.of_nat j) = Ok (Z.of_nat i', Z.of_nat j') /\
  assemble_transformation (S fuel) ops (Z.of_nat i) (Z.of_nat j)
  = (let* seq := assemble_transformation fuel ops (Z.of_nat i') (Z.of_nat j') in
     Ok (seq ++ [op])).
Proof.
  intros Hs Hg. apply get2_rows in Hg as (row & Hr & Ho).
  assert ((Z.of_nat i =? 0)%Z && (Z.of_nat j =? 0)%Z = false) as Hbase.
  { apply andb_false_iff. destruct Hs; (left; apply Z.eqb_neq; lia) || (right; apply Z.eqb_neq; lia). }
  unfold callee. cbn [assemble_transformation]. rewrite Hbase.
  rewrite !py_index_nat, Hr. cbn [bind]. rewrite !py_index_nat, Ho. cbn [bind].
  destruct Hs; unfold op_copy, op_replace, op_delete, op_insert; cbn [app];
    rewrite !py_index_head; cbn;
    repeat match goal with
    | |- context [(Z.of_nat (S ?k) - 1)%Z] =>
        replace (Z.of_nat (S k) - 1)%Z with (Z.of_nat k) by lia
    end; done.
Qed.

Lemma apply_op_step i j op i' j' w :
  cell_step i j op i' j' w -> i <= m -> j <= n ->
  apply_op op (take j' destination ++ drop i' source, j')
  = Some (take j destination ++ drop i source, j).
Proof.
  intros Hs Hi Hj.
  assert (forall k, k <= n -> length (take k destination) = k) as Hlen
    by (intros; apply length_take_le; lia).
  destruct Hs as [i j a Ha Hb|i j a b Ha Hb Hab|i j a Ha|i j b Hb]; cbn.
  - rewrite (drop_S _ _ _ Ha). rewrite list_lookup_middle by (rewrite Hlen; lia).
    repeat (case_bool_decide; try done).
    rewrite (take_S_r _ _ _ Hb). rewrite <- app_assoc. simpl.
    do 3 f_equal. lia.
  - rewrite (drop_S _ _ _ Ha). rewrite list_lookup_middle by (rewrite Hlen; lia).
    repeat (case_bool_decide; try done).
    rewrite insert_app_r_alt by (rewrite Hlen; lia). rewrite Hlen by lia.
    rewrite Nat.sub_diag. simpl.
    rewrite (take_S_r _ _ _ Hb). rewrite <- app_assoc. simpl.
    do 3 f_equal. lia.
  - rewrite (drop_S _ _ _ Ha). rewrite list_lookup_middle by (rewrite Hlen; lia).
    repeat (case_bool_decide; try done).
    rewrite <- (Hlen j) at 1 by lia. by rewrite delete_middle.
  - destruct (Nat.leb_spec j (length (take j destination ++ drop i source))) as [_|Hgt].
    2:{ rewrite length_app, Hlen in Hgt by lia. lia. }
    rewrite take_app_length' by (rewrite Hlen; lia).
    rewrite drop_app_length' by (rewrite Hlen; lia).
    rewrite (take_S_r _ _ _ Hb). rewrite <- app_assoc. simpl.
    do 3 f_equal. lia.
Qed.

Lemma op_cost_step i j op i' j' w :
  cell_step i j op i' j' w ->
  op_cost copy_cost replace_cost delete_cost insert_cost op = w.
Proof. by destruct 1. Qed.

Lemma cell_step_back i j op i' j' w :
  cell_step i j op i' j' w -> i' <= i /\ j' <= j /\ i' + j' < i + j.
Proof. destruct 1; lia. Qed.

(** The traversal from an in-range cell: it returns at depth at most
    [i + j + 1]; the script has at most [i + j] operations, costs what
    the cost table holds at [(i, j)], and turns the first [i] symbols of
    the source into the first [j] symbols of the destination. *)
Lemma assemble_in_range fuel :
  forall i j, i <= m -> j <= n -> i + j < fuel ->
  exists script,
    assemble_transformation fuel ops (Z.of_nat i) (Z.of_nat j) = Ok script /\
    length script <= i + j /\
    get2 costs i j = Ok (script_cost copy_cost replace_cost delete_cost insert_cost script) /\
    apply_script script (source, 0) = Some (take j destination ++ drop i source, j).
Proof.
  induction fuel as [|fuel IH]; intros i j Hi Hj Hfuel; [lia|].
  destruct (decide (i + j = 0)) as [Hz|Hnz].
  - assert (i = 0) as -> by lia. assert (j = 0) as -> by lia.
    exists []. simpl. split; [done|]. split; [lia|]. split; [apply origin_cost|].
    by rewrite ?take_0, ?drop_0.
  - destruct (cell_step_exists i j Hi Hj ltac:(lia))
      as (op & i' & j' & w & c & c' & Hs & Ho & Hc & Hc' & ->).
    destruct (cell_step_back _ _ _ _ _ _ Hs) as (Hi' & Hj' & Hlt).
    destruct (IH i' j' ltac:(lia) ltac:(lia) ltac:(lia)) as (script & E & Hlen & Hcost & Happ).
    destruct (assemble_unfold i j op i' j' w fuel Hs Ho) as [_ ->]. rewrite E. cbn [bind].
    exists (script ++ [op]). split; [done|].
    split; [rewrite length_app; simpl; lia|]. split.
    + rewrite script_cost_snoc, (op_cost_step _ _ _ _ _ _ Hs).
      rewrite Hcost in Hc'. injection Hc' as <-. done.
    + rewrite apply_script_snoc, Happ. by eapply apply_op_step.
Qed.

Lemma py_index_ok {A : Type} (l : list A) (k : Z) x :
  py_index l k = Ok x ->
  (- Z.of_nat (length l) <= k < Z.of_nat (length l))%Z /\ exists idx, l !! idx = Some x.
Proof.
  unfold py_index, index. destruct (Z.leb_spec 0 k) as [Hk|Hk].
  - destruct (l !! Z.to_nat k) eqn:E; [|done]. intros [= ->].
    apply lookup_lt_Some in E as Hlt. split; [lia|eauto].
  - destruct (Z.leb_spec (- Z.of_nat (length l)) k) as [Hk'|Hk']; [|done].
    destruct (l !! Z.to_nat (Z.of_nat (length l) + k)) eqn:E; [|done]. intros [= ->].
    split; [lia|eauto].
Qed.

Lemma py_index_no_fuel {A : Type} (l : list A) (k : Z) : py_index l k <> OutOfFuel.
Proof.
  unfold py_index, index. repeat case_match; done.
Qed.

Lemma ops_dims : dims ops m n.
Proof. by destruct tables as (_ & ? & _). Qed.

Lemma ops_row_length idx row : ops !! idx = Some row -> idx <= m /\ length row = n + 1.
Proof.
  intros H. destruct ops_dims as [Hlen Hrows]. apply lookup_lt_Some in H as Hlt.
  split; [lia|]. by eapply Hrows.
Qed.

Lemma ops_cell_nonempty idx row jdx op :
  ops !! idx = Some row -> row !! jdx = Some op -> exists tag rest, op = tag :: rest.
Proof.
  intros Hrow Hop. destruct (ops_row_length _ _ Hrow) as [Hi Hlen].
  apply lookup_lt_Some in Hop as Hj. rewrite Hlen in Hj.
  assert (get2 ops idx jdx = Ok op) as Hg by (unfold get2, index; rewrite Hrow; simpl; by rewrite Hop).
  destruct (decide (idx + jdx = 0)) as [Hz|Hnz].
  - assert (idx = 0) as -> by lia. assert (jdx = 0) as -> by lia.
    destruct origin_cost as [_ Ho]. rewrite Ho in Hg. injection Hg as <-. by eexists _, _.
  - destruct (cell_step_exists idx jdx Hi ltac:(lia) ltac:(lia))
      as (op' & i' & j' & w & c & c' & Hs & Ho & _).
    rewrite Ho in Hg. injection Hg as <-. destruct Hs; by eexists _, _.
Qed.

(** A coordinate beyond the last row or column: the first access raises. *)
Lemma assemble_beyond fuel (i j : Z) :
  (Z.of_nat m < i \/ Z.of_nat n < j)%Z ->
  assemble_transformation (S fuel) ops i j = IndexError.
Proof.
  intros Hout. cbn [assemble_transformation].
  assert ((i =? 0)%Z && (j =? 0)%Z = false) as ->.
  { apply andb_false_iff. destruct Hout; [left|right]; apply Z.eqb_neq; lia. }
  destruct (py_index ops i) as [row| |] eqn:Ei; [|done|by apply py_index_no_fuel in Ei].
  cbn [bind]. apply py_index_ok in Ei as [Hi [idx Hrow]].
  destruct (ops_row_length _ _ Hrow) as [_ Hlen].
  destruct ops_dims as [Hrows _]. rewrite Hrows in Hi.
  destruct (py_index row j) as [op| |] eqn:Ej; [|done|by apply py_index_no_fuel in Ej].
  apply py_index_ok in Ej as [Hj _]. rewrite Hlen in Hj. lia.
Qed.

(** A negative coordinate: Python counts from the end of the list, the
    traversal never reaches the cell (0, 0) and runs off the table. *)
Lemma assemble_negative fuel :
  forall i j : Z,
  (i < 0 \/ j < 0)%Z -> (i <= Z.of_nat m)%Z -> (j <= Z.of_nat n)%Z ->
  (Z.max 1 ((i + Z.of_nat m + 2) + (j + Z.of_nat n + 2)) <= Z.of_nat fuel)%Z ->
  assemble_transformation fuel ops i j = IndexError.
Proof.
  induction fuel as [|fuel IH]; intros i j Hneg Hi Hj Hfuel; [lia|].
  cbn [assemble_transformation].
  assert ((i =? 0)%Z && (j =? 0)%Z = false) as ->.
  { apply andb_false_iff. destruct Hneg; [left|right]; apply Z.eqb_neq; lia. }
  destruct (py_index ops i) as [row| |] eqn:Ei; [|done|by apply py_index_no_fuel in Ei].
  cbn [bind]. apply py_index_ok in Ei as [Hi' [idx Hrow]].
  destruct (ops_row_length _ _ Hrow) as [_ Hlen].
  destruct ops_dims as [Hrows _]. rewrite Hrows in Hi'.
  destruct (py_index row j) as [op| |] eqn:Ej; [|done|by apply py_index_no_fuel in Ej].
  cbn [bind]. apply py_index_ok in Ej as [Hj' [jdx Hop]]. rewrite Hlen in Hj'.
  destruct (ops_cell_nonempty _ _ _ _ Hrow Hop) as (tag & rest & ->).
  rewrite py_index_head. cbn [bind].
  destruct (bool_decide (tag = "C"%char) || bool_decide (tag = "R"%char));
    [|destruct (bool_decide (tag = "D"%char))];
    rewrite IH by lia; done.
Qed.

End Assemble.

(** ** The tables and the traversal: results *)

Lemma choose_cost cc rc dc ic a b diag vert horiz :
  (choose cc rc dc ic a b diag vert horiz).1
  = Z.min (Z.min (diag + (if bool_decide (a = b) then cc else rc)) (vert + dc)) (horiz + ic).
Proof.
  unfold choose.
  destruct (Z.ltb_spec (vert + dc) (if bool_decide (a = b) then diag + cc else diag + rc));
    simpl; (match goal with |- context [Z.ltb (horiz + ic) ?y] => destruct (Z.ltb_spec (horiz + ic) y) end; simpl); case_bool_decide; lia.
Qed.

Lemma interior_cell cc rc dc ic (s d : str) costs ops (i j : nat) :
  tables_ok cc rc dc ic s d costs ops ->
  1 <= i <= length s -> 1 <= j <= length d ->
  exists a b diag vert horiz,
    s !! (i - 1) = Some a /\ d !! (j - 1) = Some b /\
    get2 costs (i - 1) (j - 1) = Ok diag /\
    get2 costs (i - 1) j = Ok vert /\
    get2 costs i (j - 1) = Ok horiz /\
    get2 costs i j = Ok (choose cc rc dc ic a b diag vert horiz).1 /\
    get2 ops i j = Ok (choose cc rc dc ic a b diag vert horiz).2.
Proof.
  intros (_ & _ & H) Hi Hj. specialize (H i j ltac:(lia) ltac:(lia)).
  destruct i as [|i]; [lia|]. destruct j as [|j]; [lia|]. simpl in H.
  replace (S i - 1) with i by lia. replace (S j - 1) with j by lia. exact H.
Qed.

(** C2: the script that [assemble_transformation] returns for the last
    cell of the operation table turns the source into the destination
    when it is applied operation by operation, and the sum of the costs
    of its operations is the entry of the cost table at that cell. *)
Theorem transformation_round_trip (s d : str) (copy_cost replace_cost delete_cost insert_cost : Z) :
  exists costs ops,
    compute_transform_tables copy_cost replace_cost delete_cost insert_cost s d = Ok (costs, ops) /\
    forall fuel, length s + length d < fuel ->
      exists script,
        assemble_transformation fuel ops (Z.of_nat (length s)) (Z.of_nat (length d)) = Ok script /\
        apply_script script (s, 0) = Some (d, length d) /\
        get2 costs (length s) (length d)
        = Ok (script_cost copy_cost replace_cost delete_cost insert_cost script).
Proof.
  destruct (compute_transform_tables_ok copy_cost replace_cost delete_cost insert_cost s d)
    as (costs & ops & E & Hok).
  exists costs, ops. split; [done|]. intros fuel Hfuel.
  destruct (assemble_in_range _ _ _ _ _ _ _ _ Hok fuel (length s) (length d))
    as (script & Ea & _ & Hcost & Happ); [lia..|].
  exists script. split; [done|]. split; [|done].
  rewrite Happ. by rewrite take_ge, drop_all, app_nil_r.
Qed.

Lemma transformation_round_trip_witness :
  exists costs ops,
    compute_transform_tables 1 1 1 1 (py "te") (py "test") = Ok (costs, ops) /\
    exists script,
      assemble_transformation 7 ops 2 4 = Ok script /\
      apply_script script (py "te", 0) = Some (py "test", 4) /\
      get2 costs 2 4 = Ok (script_cost 1 1 1 1 script).
Proof.
  destruct (transformation_round_trip (py "te") (py "test") 1 1 1 1) as (costs & ops & E & H).
  exists costs, ops. split; [exact E|]. apply (H 7). simpl. lia.
Defined.

(** C3: the cost table has 0 at the origin, [i * delete_cost] down the
    first column, [j * insert_cost] along the first row, and in every
    other cell the minimum of the three transitions. *)
Theorem cost_matrix_recurrence (s d : str) (copy_cost replace_cost delete_cost insert_cost : Z) :
  exists costs ops,
    compute_transform_tables copy_cost replace_cost delete_cost insert_cost s d = Ok (costs, ops) /\
    get2 costs 0 0 = Ok 0%Z /\
    (forall i, 1 <= i <= length s -> get2 costs i 0 = Ok (Z.of_nat i * delete_cost)%Z) /\
    (forall j, 1 <= j <= length d -> get2 costs 0 j = Ok (Z.of_nat j * insert_cost)%Z) /\
    (forall i j, 1 <= i <= length s -> 1 <= j <= length d ->
       exists a b diag vert horiz,
         s !! (i - 1) = Some a /\ d !! (j - 1) = Some b /\
         get2 costs (i - 1) (j - 1) = Ok diag /\
         get2 costs (i - 1) j = Ok vert /\
         get2 costs i (j - 1) = Ok horiz /\
         get2 costs i j
         = Ok (Z.min (Z.min (diag + (if bool_decide (a = b) then copy_cost else replace_cost))
                            (vert + delete_cost))
                     (horiz + insert_cost))).
Proof.
  destruct (compute_transform_tables_ok copy_cost replace_cost delete_cost insert_cost s d)
    as (costs & ops & E & Hok).
  exists costs, ops. split; [done|].
  split; [by destruct (origin_cost _ _ _ _ _ _ _ _ Hok)|].
  split; [intros i Hi; eapply column_cost; [done|lia]|].
  split; [intros j Hj; eapply row_cost; [done|lia]|].
  intros i j Hi Hj.
  destruct (interior_cell _ _ _ _ _ _ _ _ i j Hok Hi Hj)
    as (a & b & diag & vert & horiz & Ha & Hb & Hd & Hv & Hh & Hc & _).
  exists a, b, diag, vert, horiz. rewrite choose_cost in Hc. done.
Qed.

Lemma cost_matrix_recurrence_witness :
  exists costs ops,
    compute_transform_tables 1 1 1 1 (py "te") (py "test") = Ok (costs, ops) /\
    get2 costs 0 0 = Ok 0%Z /\
    get2 costs 2 0 = Ok (2 * 1)%Z /\
    get2 costs 0 4 = Ok (4 * 1)%Z /\
    exists a b diag vert horiz,
      py "te" !! 1 = Some a /\ py "test" !! 3 = Some b /\
      get2 costs 1 3 = Ok diag /\ get2 costs 1 4 = Ok vert /\ get2 costs 2 3 = Ok horiz /\
      get2 costs 2 4
      = Ok (Z.min (Z.min (diag + (if bool_decide (a = b) then 1 else 1)) (vert + 1)) (horiz + 1)).
Proof.
  destruct (cost_matrix_recurrence (py "te") (py "test") 1 1 1 1)
    as (costs & ops & E & H0 & Hc & Hr & Hi).
  exists costs, ops. split; [exact E|]. split; [exact H0|].
  split; [apply (Hc 2); simpl; lia|]. split; [apply (Hr 4); simpl; lia|].
  apply (Hi 2 4); simpl; lia.
Defined.

(** C7: in every interior cell the recorded operation is the diagonal one
    (Copy on equal symbols, otherwise Replace) unless a later candidate is
    strictly cheaper: Delete when the vertical cost is strictly below the
    diagonal one and Insert is not strictly below it, Insert when the
    horizontal cost is strictly below both.  On equal costs the diagonal
    wins over the vertical, and the vertical over the horizontal. *)
Theorem operation_tie_break (s d : str) (copy_cost replace_cost delete_cost insert_cost : Z) :
  exists costs ops,
    compute_transform_tables copy_cost replace_cost delete_cost insert_cost s d = Ok (costs, ops) /\
    forall i j, 1 <= i <= length s -> 1 <= j <= length d ->
      exists a b diag vert horiz,
        s !! (i - 1) = Some a /\ d !! (j - 1) = Some b /\
        get2 costs (i - 1) (j - 1) = Ok diag /\
        get2 costs (i - 1) j = Ok vert /\
        get2 costs i (j - 1) = Ok horiz /\
        let dg := (diag + (if bool_decide (a = b) then copy_cost else replace_cost))%Z in
        let vt := (vert + delete_cost)%Z in
        let hz := (horiz + insert_cost)%Z in
        ((dg <= vt)%Z -> (dg <= hz)%Z ->
           get2 ops i j = Ok (if bool_decide (a = b) then op_copy a else op_replace a b)) /\
        ((vt < dg)%Z -> (vt <= hz)%Z -> get2 ops i j = Ok (op_delete a)) /\
        ((hz < dg)%Z -> (hz < vt)%Z -> get2 ops i j = Ok (op_insert b)).
Proof.
  destruct (compute_transform_tables_ok copy_cost replace_cost delete_cost insert_cost s d)
    as (costs & ops & E & Hok).
  exists costs, ops. split; [done|]. intros i j Hi Hj.
  destruct (interior_cell _ _ _ _ _ _ _ _ i j Hok Hi Hj)
    as (a & b & diag & vert & horiz & Ha & Hb & Hd & Hv & Hh & _ & Ho).
  exists a, b, diag, vert, horiz. do 5 (split; [done|]).
  cbv zeta. rewrite Ho. unfold choose.
  destruct (Z.ltb_spec (vert + delete_cost)
              (if bool_decide (a = b) then diag + copy_cost else diag + replace_cost));
    simpl; (match goal with |- context [Z.ltb (horiz + insert_cost) ?y] =>
       destruct (Z.ltb_spec (horiz + insert_cost) y) end; simpl);
    (split; [|split]); intros H1 H2; first [done | exfalso; case_bool_decide; lia].
Qed.

Lemma operation_tie_break_witness :
  exists costs ops,
    compute_transform_tables 1 1 1 1 (py "ab") (py "c") = Ok (costs, ops) /\
    exists a b diag vert horiz,
      py "ab" !! 1 = Some a /\ py "c" !! 0 = Some b /\
      get2 costs 1 0 = Ok diag /\ get2 costs 1 1 = Ok vert /\ get2 costs 2 0 = Ok horiz /\
      let dg := (diag + (if bool_decide (a = b) then 1 else 1))%Z in
      let vt := (vert + 1)%Z in
      let hz := (horiz + 1)%Z in
      ((dg <= vt)%Z -> (dg <= hz)%Z ->
         get2 ops 2 1 = Ok (if bool_decide (a = b) then op_copy a else op_replace a b)) /\
      ((vt < dg)%Z -> (vt <= hz)%Z -> get2 ops 2 1 = Ok (op_delete a)) /\
      ((hz < dg)%Z -> (hz < vt)%Z -> get2 ops 2 1 = Ok (op_insert b)).
Proof.
  destruct (operation_tie_break (py "ab") (py "c") 1 1 1 1) as (costs & ops & E & H).
  exists costs, ops. split; [exact E|]. apply (H 2 1); simpl; lia.
Defined.

(** C8: on the operation table of [compute_transform_tables],
    [assemble_transformation] raises [IndexError], Python's out-of-bounds
    error, for every pair of coordinates outside the table (beyond the last
    row or column at the first access; for a negative coordinate after
    running off the table), and returns a script for every pair inside. *)
Theorem assemble_transformation_bounds (s d : str)
    (copy_cost replace_cost delete_cost insert_cost : Z) :
  exists costs ops,
    compute_transform_tables copy_cost replace_cost delete_cost insert_cost s d = Ok (costs, ops) /\
    forall (i j : Z) (fuel : nat),
      ((0 <= i <= Z.of_nat (length s))%Z -> (0 <= j <= Z.of_nat (length d))%Z ->
       (i + j < Z.of_nat fuel)%Z ->
       exists script, assemble_transformation fuel ops i j = Ok script) /\
      ((Z.of_nat (length s) < i \/ Z.of_nat (length d) < j)%Z ->
       assemble_transformation (S fuel) ops i j = IndexError) /\
      ((i < 0 \/ j < 0)%Z -> 2 * (length s + length d) + 4 <= fuel ->
       assemble_transformation fuel ops i j = IndexError).
Proof.
  destruct (compute_transform_tables_ok copy_cost replace_cost delete_cost insert_cost s d)
    as (costs & ops & E & Hok).
  exists costs, ops. split; [done|]. intros i j fuel. split; [|split].
  - intros Hi Hj Hfuel.
    destruct (assemble_in_range _ _ _ _ _ _ _ _ Hok fuel (Z.to_nat i) (Z.to_nat j))
      as (script & Ea & _); [lia..|].
    rewrite !Z2Nat.id in Ea by lia. eauto.
  - by apply (assemble_beyond _ _ _ _ _ _ _ _ Hok).
  - intros Hneg Hfuel.
    destruct (decide (Z.of_nat (length s) < i \/ Z.of_nat (length d) < j)%Z) as [Hout|Hin].
    + destruct fuel as [|fuel]; [lia|]. by apply (assemble_beyond _ _ _ _ _ _ _ _ Hok).
    + apply (assemble_negative _ _ _ _ _ _ _ _ Hok); lia.
Qed.

Lemma assemble_transformation_bounds_witness :
  exists costs ops,
    compute_transform_tables 1 1 1 1 (py "te") (py "test") = Ok (costs, ops) /\
    (exists script, assemble_transformation 7 ops 2 4 = Ok script) /\
    assemble_transformation 1 ops 3 0 = IndexError /\
    assemble_transformation 1 ops 2 5 = IndexError /\
    assemble_transformation 16 ops (-1) 2 = IndexError.
Proof.
  destruct (assemble_transformation_bounds (py "te") (py "test") 1 1 1 1)
    as (costs & ops & E & H).
  exists costs, ops. split; [exact E|].
  destruct (H 2%Z 4%Z 7) as (Hin & _ & _).
  destruct (H 3%Z 0%Z 0) as (_ & Hrow & _).
  destruct (H 2%Z 5%Z 0) as (_ & Hcol & _).
  destruct (H (-1)%Z 2%Z 16) as (_ & _ & Hneg).
  split; [apply Hin; simpl; lia|].
  split; [apply Hrow; simpl; lia|].
  split; [apply Hcol; simpl; lia|].
  apply Hneg; simpl; lia.
Defined.

(** C9: on the operation table of [compute_transform_tables] the call at
    (0, 0) returns the empty script; the call at any other in-range cell
    [(i, j)] recurses to an in-range cell [(i', j')] with
    [i' + j' < i + j]; and the traversal from [(i, j)] returns within a
    recursion depth of [i + j + 1], with a script of at most [i + j]
    operations, one for each recursive step. *)
Theorem assemble_transformation_terminates (s d : str)
    (copy_cost replace_cost delete_cost insert_cost : Z) :
  exists costs ops,
    compute_transform_tables copy_cost replace_cost delete_cost insert_cost s d = Ok (costs, ops) /\
    (forall fuel, assemble_transformation (S fuel) ops 0 0 = Ok []) /\
    forall i j : nat, i <= length s -> j <= length d ->
      (0 < i + j ->
       exists op i' j',
         get2 ops i j = Ok op /\
         callee ops (Z.of_nat i) (Z.of_nat j) = Ok (Z.of_nat i', Z.of_nat j') /\
         i' <= i /\ j' <= j /\ i' + j' < i + j /\
         forall fuel,
           assemble_transformation (S fuel) ops (Z.of_nat i) (Z.of_nat j)
           = (let* seq := assemble_transformation fuel ops (Z.of_nat i') (Z.of_nat j') in
              Ok (seq ++ [op]))) /\
      (forall fuel, i + j < fuel ->
       exists script,
         assemble_transformation fuel ops (Z.of_nat i) (Z.of_nat j) = Ok script /\
         length script <= i + j).
Proof.
  destruct (compute_transform_tables_ok copy_cost replace_cost delete_cost insert_cost s d)
    as (costs & ops & E & Hok).
  exists costs, ops. split; [done|]. split; [done|]. intros i j Hi Hj. split.
  - intros Hpos.
    destruct (cell_step_exists _ _ _ _ _ _ _ _ Hok i j Hi Hj Hpos)
      as (op & i' & j' & w & c & c' & Hs & Ho & _).
    destruct (cell_step_back _ _ _ _ _ _ _ _ _ _ _ _ Hs) as (Hi' & Hj' & Hlt).
    exists op, i', j'. split; [done|].
    split; [by destruct (assemble_unfold _ _ _ _ _ _ _ i j op i' j' w 0 Hs Ho)|].
    do 3 (split; [done|]). intros fuel.
    by destruct (assemble_unfold _ _ _ _ _ _ _ i j op i' j' w fuel Hs Ho).
  - intros fuel Hfuel.
    destruct (assemble_in_range _ _ _ _ _ _ _ _ Hok fuel i j Hi Hj Hfuel)
      as (script & Ea & Hlen & _).
    eauto.
Qed.

Lemma assemble_transformation_terminates_witness :
  exists costs ops,
    compute_transform_tables 1 1 1 1 (py "te") (py "test") = Ok (costs, ops) /\
    assemble_transformation 1 ops 0 0 = Ok [] /\
    (exists op i' j',
       get2 ops 2 4 = Ok op /\
       callee ops 2 4 = Ok (Z.of_nat i', Z.of_nat j') /\
       i' <= 2 /\ j' <= 4 /\ i' + j' < 2 + 4 /\
       forall fuel,
         assemble_transformation (S fuel) ops 2 4
         = (let* seq := assemble_transformation fuel ops (Z.of_nat i') (Z.of_nat j') in
            Ok (seq ++ [op]))) /\
    exists script, assemble_transformation 7 ops 2 4 = Ok script /\ length script <= 2 + 4.
Proof.
  destruct (assemble_transformation_terminates (py "te") (py "test") 1 1 1 1)
    as (costs & ops & E & H0 & H).
  exists costs, ops. split; [exact E|]. split; [exact (H0 0)|].
  destruct (H 2 4) as [Hstep Hrun]; [simpl; lia..|].
  split; [apply Hstep; lia|]. apply (Hrun 7). lia.
Defined.

(** ** More on the search *)

Lemma get_failure_array_ok P fuel f :
  P <> [] -> get_failure_array fuel P = Ok f -> failure_upto P f (length P).
Proof.
  intros HP Hf.
  destruct (get_failure_array_total P (fuel + 2 * length P) HP ltac:(lia)) as (f' & Hf' & Hok).
  unfold get_failure_array in *.
  rewrite (while_more_fuel _ fuel (fuel + 2 * length P) _ f Hf) in Hf' by lia.
  by injection Hf' as <-.
Qed.

Lemma iterations_le_variant {St R : Type} (body : St -> flow St R)
    (Inv : St -> Prop) (variant : St -> nat) (Post : R -> Prop) :
  (forall s, Inv s ->
     match body s with
     | Continue s' => Inv s' /\ variant s' < variant s
     | Return r => Post r
     | Raise => False
     end) ->
  forall fuel s, Inv s -> iterations fuel body s <= variant s.
Proof.
  intros Hbody fuel. induction fuel as [|fuel IH]; intros s HI; simpl; [lia|].
  specialize (Hbody s HI). destruct (body s) as [s'|r|]; [|lia..].
  destruct Hbody as [HI' Hlt]. specialize (IH s' HI'). lia.
Qed.

(** X1: consecutive entries of the failure table grow by at most one. *)
Theorem failure_table_grows_by_one (P : str) (fuel : nat) (f : list nat) (j a b : nat) :
  get_failure_array fuel P = Ok f ->
  f !! j = Some a -> f !! (j + 1) = Some b -> b <= a + 1.
Proof.
  intros Hf Ha Hb. destruct (decide (P = [])) as [->|HP].
  - destruct fuel as [|fuel]; [done|]. injection Hf as <-.
    by replace (j + 1) with (S j) in Hb by lia.
  - destruct (get_failure_array_ok P fuel f HP Hf) as [_ Hok].
    destruct (Hok _ _ Ha) as [_ Hmax]. destruct (Hok _ _ Hb) as [Hbb _].
    destruct b as [|b]; [lia|].
    replace (S b) with (b + 1) in Hbb by lia.
    apply pborder_shrink in Hbb; [|lia]. apply Hmax in Hbb. lia.
Qed.

Lemma failure_table_grows_by_one_witness :
  get_failure_array 18 (py "aabaabaaa") = Ok [0; 1; 0; 1; 2; 3; 4; 5; 2] /\ 4 <= 3 + 1.
Proof.
  split; [reflexivity|].
  apply (failure_table_grows_by_one (py "aabaabaaa") 18 [0; 1; 0; 1; 2; 3; 4; 5; 2] 5 3 4);
    reflexivity.
Defined.

(** X2: both loops are linear.  Whatever the fuel, the loop of
    [get_failure_array] goes round at most [2 * (len(pattern) - 1)] times
    and the scan loop of [kmp] at most [2 * len(text)] times. *)
Theorem kmp_linear_passes (P T : str) (fuel fuel1 fuel2 : nat) (f : list nat) :
  P <> [] -> get_failure_array fuel P = Ok f ->
  iterations fuel1 (failure_iter P) ([0], 0, 1) <= 2 * (length P - 1) /\
  iterations fuel2 (kmp_iter P T f) (0, 0) <= 2 * length T.
Proof.
  intros HP Hf. pose proof (get_failure_array_ok P fuel f HP Hf) as Hok. split.
  - pose proof (iterations_le_variant (failure_iter P) (failure_inv P) (failure_variant P)
                  (fun f => failure_upto P f (length P)) (failure_iter_ok P)
                  fuel1 ([0], 0, 1) (failure_inv_start P HP)) as H.
    simpl in H. lia.
  - pose proof (iterations_le_variant (kmp_iter P T f) (kmp_inv P T) (kmp_variant T)
                  (fun b => b = true <-> exists s, occurs_at P T s)
                  (fun st => kmp_iter_ok P T f st Hok)
                  fuel2 (0, 0) (kmp_inv_start P T HP)) as H.
    simpl in H. lia.
Qed.

Lemma kmp_linear_passes_witness :
  iterations 100 (failure_iter (py "AAAB")) ([0], 0, 1) <= 2 * (length (py "AAAB") - 1) /\
  iterations 100 (kmp_iter (py "AAAB") (py "ABAAAAAB") [0; 1; 2; 0]) (0, 0)
  <= 2 * length (py "ABAAAAAB").
Proof.
  apply (kmp_linear_passes (py "AAAB") (py "ABAAAAAB") 8 100 100 [0; 1; 2; 0]);
    [discriminate|reflexivity].
Defined.

(** ** More on the tables *)

Section TableFacts.

Variables copy_cost replace_cost delete_cost insert_cost : Z.
Variables source destination : str.
Variables (costs : list (list Z)) (ops : list (list str)).

Local Abbreviation m := (length source).
Local Abbreviation n := (length destination).

Hypothesis tables :
  tables_ok copy_cost replace_cost delete_cost insert_cost source destination costs ops.

Local Abbreviation choose := (choose copy_cost replace_cost delete_cost insert_cost).
Local Abbreviation cell_step :=
  (cell_step copy_cost replace_cost delete_cost insert_cost source destination).
Local Abbreviation script_path :=
  (script_path copy_cost replace_cost delete_cost insert_cost source destination).
Local Abbreviation script_cost :=
  (script_cost copy_cost replace_cost delete_cost insert_cost).

(** Induction over the cells of the cost table, in the order in which
    they are filled. *)
Lemma cost_cells_ind (Q : nat -> nat -> Z -> Prop) :
  Q 0 0 0%Z ->
  (forall i, i < m -> Q (S i) 0 (Z.of_nat (S i) * delete_cost)%Z) ->
  (forall j, j < n -> Q 0 (S j) (Z.of_nat (S j) * insert_cost)%Z) ->
  (forall i j a b diag vert horiz,
     source !! i = Some a -> destination !! j = Some b ->
     Q i j diag -> Q i (S j) vert -> Q (S i) j horiz ->
     Q (S i) (S j) (choose a b diag vert horiz).1) ->
  forall i j, i <= m -> j <= n -> exists c, get2 costs i j = Ok c /\ Q i j c.
Proof.
  intros H00 Hcol Hrow Hin. pose proof tables as (_ & _ & Hcells).
  induction i as [|i IHi]; induction j as [|j IHj]; intros Hi Hj;
    pose proof (Hcells _ _ Hi Hj) as Hc; simpl in Hc.
  - destruct Hc as [Hc _]. eauto.
  - destruct Hc as (b & _ & Hc & _). eexists. split; [done|]. apply Hrow. lia.
  - destruct Hc as (a & _ & Hc & _). eexists. split; [done|]. apply Hcol. lia.
  - destruct Hc as (a & b & diag & vert & horiz & Ha & Hb & Hd & Hv & Hh & Hc & _).
    eexists. split; [done|].
    destruct (IHi j ltac:(lia) ltac:(lia)) as (c1 & E1 & Q1).
    destruct (IHi (S j) ltac:(lia) ltac:(lia)) as (c2 & E2 & Q2).
    destruct (IHj ltac:(lia) ltac:(lia)) as (c3 & E3 & Q3).
    rewrite Hd in E1. rewrite Hv in E2. rewrite Hh in E3.
    injection E1 as <-. injection E2 as <-. injection E3 as <-.
    by apply Hin.
Qed.

(** No move into a cell is cheaper than what the cell holds. *)
Lemma cost_step_le i j op i' j' w :
  cell_step i j op i' j' w -> i <= m -> j <= n ->
  exists c c', get2 costs i j = Ok c /\ get2 costs i' j' = Ok c' /\ (c <= c' + w)%Z.
Proof.
  intros Hs Hi Hj. pose proof tables as (_ & _ & Hcells).
  destruct Hs as [i j a Ha Hb|i j a b Ha Hb Hab|i j a Ha|i j b Hb].
  - destruct (Hcells _ _ Hi Hj) as (a0 & b0 & diag & vert & horiz & Ha0 & Hb0 & Hd & _ & _ & Hc & _).
    rewrite Ha in Ha0. rewrite Hb in Hb0. injection Ha0 as <-. injection Hb0 as <-.
    eexists _, _. split; [done|]. split; [done|].
    rewrite choose_cost. rewrite bool_decide_true by done. lia.
  - destruct (Hcells _ _ Hi Hj) as (a0 & b0 & diag & vert & horiz & Ha0 & Hb0 & Hd & _ & _ & Hc & _).
    rewrite Ha in Ha0. rewrite Hb in Hb0. injection Ha0 as <-. injection Hb0 as <-.
    eexists _, _. split; [done|]. split; [done|].
    rewrite choose_cost. rewrite bool_decide_false by done. lia.
  - destruct j as [|j].
    + eexists _, _. split; [by apply (column_cost _ _ _ _ _ _ _ _ tables)|].
      split; [apply (column_cost _ _ _ _ _ _ _ _ tables); lia|]. lia.
    + destruct (Hcells _ _ Hi Hj) as (a0 & b0 & diag & vert & horiz & _ & _ & _ & Hv & _ & Hc & _).
      eexists _, _. split; [done|]. split; [done|]. rewrite choose_cost. lia.
  - destruct i as [|i].
    + eexists _, _. split; [by apply (row_cost _ _ _ _ _ _ _ _ tables)|].
      split; [apply (row_cost _ _ _ _ _ _ _ _ tables); lia|]. lia.
    + destruct (Hcells _ _ Hi Hj) as (a0 & b0 & diag & vert & horiz & _ & _ & _ & _ & Hh & Hc & _).
      eexists _, _. split; [done|]. split; [done|]. rewrite choose_cost. lia.
Qed.

(** The script assembled for a cell follows recorded operations back to
    the origin. *)
Lemma assemble_path fuel :
  forall i j, i <= m -> j <= n -> i + j < fuel ->
  exists script,
    assemble_transformation fuel ops (Z.of_nat i) (Z.of_nat j) = Ok script /\
    script_path i j script /\
    get2 costs i j = Ok (script_cost script).
Proof.
  induction fuel as [|fuel IH]; intros i j Hi Hj Hfuel; [lia|].
  destruct (decide (i + j = 0)) as [Hz|Hnz].
  - assert (i = 0) as -> by lia. assert (j = 0) as -> by lia.
    exists []. split; [done|]. split; [constructor|].
    apply (origin_cost _ _ _ _ _ _ _ _ tables).
  - destruct (cell_step_exists _ _ _ _ _ _ _ _ tables i j Hi Hj ltac:(lia))
      as (op & i' & j' & w & c & c' & Hs & Ho & Hc & Hc' & ->).
    destruct (cell_step_back _ _ _ _ _ _ _ _ _ _ _ _ Hs) as (Hi' & Hj' & Hlt).
    destruct (IH i' j' ltac:(lia) ltac:(lia) ltac:(lia)) as (script & E & Hp & Hcost).
    destruct (assemble_unfold _ _ _ _ _ _ _ i j op i' j' w fuel Hs Ho) as [_ ->].
    rewrite E. cbn [bind]. exists (script ++ [op]). split; [done|].
    split; [by econstructor|].
    rewrite script_cost_snoc, (op_cost_step _ _ _ _ _ _ _ _ _ _ _ _ Hs).
    rewrite Hcost in Hc'. injection Hc' as <-. done.
Qed.

Lemma script_path_in_range i j script :
  script_path i j script -> i <= m /\ j <= n.
Proof.
  induction 1 as [|i j op i' j' w script _ [Hi Hj] Hs]; [lia|].
  destruct Hs as [i' j' a Ha Hb|i' j' a b Ha Hb Hab|i' j' a Ha|i' j' b Hb];
    repeat match goal with H : _ !! _ = Some _ |- _ => apply lookup_lt_Some in H end; lia.
Qed.

(** Along a path, each source symbol of the prefix is used up once and
    each destination symbol of the prefix is given once. *)
Lemma script_path_counts i j script :
  script_path i j script ->
  length (List.filter consumes script) = i /\
  length (List.filter produces script) = j.
Proof.
  induction 1 as [|i j op i' j' w script _ [IHc IHp] Hs]; [done|].
  rewrite !List.filter_app, !length_app, IHc, IHp.
  destruct Hs;
    repeat match goal with
    | |- context [consumes ?o] =>
        first [change (consumes o) with true | change (consumes o) with false]
    | |- context [produces ?o] =>
        first [change (produces o) with true | change (produces o) with false]
    end; simpl; lia.
Qed.

(** Applied to the first [k] symbols of the source, a path to [(i, j)]
    with [i <= k] gives the first [j] symbols of the destination followed
    by the symbols [i .. k) of the source, the cursor between them. *)
Lemma script_path_apply k i j script :
  script_path i j script -> i <= k -> k <= m ->
  apply_script script (take k source, 0)
  = Some (take j destination ++ drop i (take k source), j).
Proof.
  intros Hp. induction Hp as [|i j op i' j' w script Hp IH Hs]; intros Hi Hk; [done|].
  destruct (cell_step_back _ _ _ _ _ _ _ _ _ _ _ _ Hs) as (Hi' & Hj' & _).
  rewrite apply_script_snoc, IH by lia.
  destruct (script_path_in_range _ _ _ (path_step _ _ _ _ _ _ _ _ _ _ _ _ _ Hp Hs)) as [_ Hj].
  assert (forall l, l <= n -> length (take l destination) = l) as Hlen
    by (intros; apply length_take_le; lia).
  assert (forall x a, x < k -> source !! x = Some a -> take k source !! x = Some a) as Hsrc
    by (intros x a Hx Ha; by rewrite lookup_take_lt).
  destruct Hs as [i j a Ha Hb|i j a b Ha Hb Hab|i j a Ha|i j b Hb]; cbn.
  - rewrite (drop_S _ _ _ (Hsrc i a ltac:(lia) Ha)).
    rewrite list_lookup_middle by (rewrite Hlen; lia).
    repeat (case_bool_decide; try done).
    rewrite (take_S_r _ _ _ Hb). rewrite <- app_assoc. simpl.
    do 3 f_equal. lia.
  - rewrite (drop_S _ _ _ (Hsrc i a ltac:(lia) Ha)).
    rewrite list_lookup_middle by (rewrite Hlen; lia).
    repeat (case_bool_decide; try done).
    rewrite insert_app_r_alt by (rewrite Hlen; lia). rewrite Hlen by lia.
    rewrite Nat.sub_diag. simpl.
    rewrite (take_S_r _ _ _ Hb). rewrite <- app_assoc. simpl.
    do 3 f_equal. lia.
  - rewrite (drop_S _ _ _ (Hsrc i a ltac:(lia) Ha)).
    rewrite list_lookup_middle by (rewrite Hlen; lia).
    repeat (case_bool_decide; try done).
    rewrite <- (Hlen j) at 1 by lia. by rewrite delete_middle.
  - repeat (case_bool_decide; try done).
    destruct (Nat.leb_spec j (length (take j destination ++ drop i (take k source)))) as [_|Hgt].
    2:{ rewrite length_app, Hlen in Hgt by lia. lia. }
    rewrite take_app_length' by (rewrite Hlen; lia).
    rewrite drop_app_length' by (rewrite Hlen; lia).
    rewrite (take_S_r _ _ _ Hb). rewrite <- app_assoc. simpl.
    do 3 f_equal. lia.
Qed.

(** Paths along the first row and the first column. *)
Lemma script_path_first_row j script :
  script_path 0 j script -> script = map op_insert (take j destination).
Proof.
  remember 0 as i eqn:Ei. intros Hp. revert Ei.
  induction Hp as [|i j op i' j' w script Hp IH Hs]; intros Ei; [done|]. subst i.
  inversion Hs as [| | |i0 j0 b Hb]; subst.
  rewrite (take_S_r _ _ _ Hb), map_app, <- IH by done. done.
Qed.

Lemma script_path_first_column i script :
  script_path i 0 script -> script = map op_delete (take i source).
Proof.
  remember 0 as j eqn:Ej. intros Hp. revert Ej.
  induction Hp as [|i j op i' j' w script Hp IH Hs]; intros Ej; [done|]. subst j.
  inversion Hs as [| |i0 j0 a Ha|]; subst.
  rewrite (take_S_r _ _ _ Ha), map_app, <- IH by done. done.
Qed.

End TableFacts.

Lemma snoc_take (out : str) (a : char) (d : str) :
  out ++ [a] = take (length out + 1) d ->
  out = take (length out) d /\ d !! length out = Some a.
Proof.
  intros E. split.
  - apply (f_equal (take (length out))) in E.
    rewrite take_app_length, take_take in E. by replace (length out `min` (length out + 1))
      with (length out) in E by lia.
  - apply (f_equal (fun l => l !! length out)) in E.
    rewrite list_lookup_middle in E by done. rewrite lookup_take_lt in E by lia. done.
Qed.

Section LowerBound.

Variables copy_cost replace_cost delete_cost insert_cost : Z.
Variables source destination : str.
Variables (costs : list (list Z)) (ops : list (list str)).

Local Abbreviation m := (length source).
Local Abbreviation n := (length destination).

Hypothesis tables :
  tables_ok copy_cost replace_cost delete_cost insert_cost source destination costs ops.
Hypothesis copy_le_replace : (copy_cost <= replace_cost)%Z.

Local Abbreviation script_cost :=
  (script_cost copy_cost replace_cost delete_cost insert_cost).

Variables k l : nat.
Hypotheses (k_le : k <= m) (l_le : l <= n).

(** A script that finishes the job from the cell [(i, length out)]: what
    it has given so far is a prefix of the destination, and the cost of
    the target cell is at most the cost of this cell plus its own. *)
Lemma lower_bound_run script :
  forall i out, i <= k ->
  apply_script script (out ++ drop i (take k source), length out)
  = Some (take l destination, l) ->
  out = take (length out) destination /\ length out <= l /\
  exists c c', get2 costs i (length out) = Ok c /\ get2 costs k l = Ok c' /\
    (c' <= c + script_cost script)%Z.
Proof.
  assert (length (take k source) = k) as Hk by (apply length_take_le; lia).
  assert (length (take l destination) = l) as Hl by (apply length_take_le; lia).
  pose proof tables as (Dc & _ & _).
  induction script as [|op script IH]; intros i out Hi Hrun.
  - simpl in Hrun. injection Hrun as E1 E2.
    assert (i = k) as ->.
    { apply (f_equal length) in E1. rewrite length_app, length_drop, Hk, Hl in E1. lia. }
    rewrite drop_ge, app_nil_r in E1 by lia. subst out. rewrite Hl.
    split; [done|]. split; [lia|].
    destruct (get2_total costs m n k l Dc k_le l_le) as [c Hc].
    exists c, c. split; [done|]. split; [done|]. simpl. lia.
  - cbn [apply_script] in Hrun.
    destruct (apply_op op (out ++ drop i (take k source), length out)) as [st'|] eqn:Hop;
      [|done].
    unfold apply_op in Hop.
    (* the symbol under the cursor, when there is one *)
    assert (forall a, (out ++ drop i (take k source)) !! length out = Some a ->
              i < k /\ source !! i = Some a /\
              drop i (take k source) = a :: drop (S i) (take k source)) as Hcur.
    { intros a Ha. rewrite lookup_app_r, Nat.sub_diag, lookup_drop, Nat.add_0_r in Ha by lia.
      pose proof (drop_S _ _ _ Ha) as Hd. apply lookup_take_Some in Ha as [Ha Hlt]. done. }
    destruct op as [|tag [|a [|b [|? ?]]]]; try done.
    + (* Copy, Delete or Insert *)
      case_bool_decide as HC; [|case_bool_decide as HD; [|case_bool_decide as HI; [|done]]].
      * case_bool_decide as Ha; [|done]. injection Hop as <-.
        destruct (Hcur a Ha) as (Hlt & Hs & Hd). rewrite Hd in Hrun.
        replace (out ++ a :: drop (S i) (take k source))
          with ((out ++ [a]) ++ drop (S i) (take k source)) in Hrun by (by rewrite <- app_assoc).
        replace (length out + 1) with (length (out ++ [a])) in Hrun
          by (rewrite length_app; simpl; lia).
        destruct (IH (S i) (out ++ [a]) ltac:(lia) Hrun) as (Hpre & Hle & c1 & c' & Hc1 & Hc' & Hcost).
        rewrite length_app in Hpre, Hle, Hc1. simpl in Hpre, Hle, Hc1.
        destruct (snoc_take _ _ _ Hpre) as [Hout Hdst].
        split; [done|]. split; [lia|].
        destruct (cost_step_le _ _ _ _ _ _ _ _ tables (S i) (S (length out))
                    (op_copy a) i (length out) copy_cost)
          as (x & c & Hx & Hc & Hstep); [by constructor|lia|lia|].
        replace (length out + 1) with (S (length out)) in Hc1 by lia.
        rewrite Hc1 in Hx. injection Hx as <-.
        exists c, c'. split; [done|]. split; [done|].
        assert (script_cost ([tag; a] :: script) = (copy_cost + script_cost script)%Z) as ->
          by (subst tag; reflexivity).
        lia.
      * case_bool_decide as Ha; [|done]. injection Hop as <-.
        destruct (Hcur a Ha) as (Hlt & Hs & Hd). rewrite Hd in Hrun.
        rewrite delete_middle in Hrun.
        destruct (IH (S i) out ltac:(lia) Hrun) as (Hpre & Hle & c1 & c' & Hc1 & Hc' & Hcost).
        split; [done|]. split; [lia|].
        destruct (cost_step_le _ _ _ _ _ _ _ _ tables (S i) (length out)
                    (op_delete a) i (length out) delete_cost)
          as (x & c & Hx & Hc & Hstep); [by constructor|lia|lia|].
        rewrite Hc1 in Hx. injection Hx as <-.
        exists c, c'. split; [done|]. split; [done|].
        assert (script_cost ([tag; a] :: script) = (delete_cost + script_cost script)%Z) as ->
          by (subst tag; reflexivity).
        lia.
      * destruct (Nat.leb_spec (length out) (length (out ++ drop i (take k source)))) as [_|Hgt];
          [|rewrite length_app in Hgt; lia].
        injection Hop as <-.
        rewrite take_app_length, drop_app_length in Hrun.
        replace (out ++ a :: drop i (take k source))
          with ((out ++ [a]) ++ drop i (take k source)) in Hrun by (by rewrite <- app_assoc).
        replace (length out + 1) with (length (out ++ [a])) in Hrun
          by (rewrite length_app; simpl; lia).
        destruct (IH i (out ++ [a]) Hi Hrun) as (Hpre & Hle & c1 & c' & Hc1 & Hc' & Hcost).
        rewrite length_app in Hpre, Hle, Hc1. simpl in Hpre, Hle, Hc1.
        destruct (snoc_take _ _ _ Hpre) as [Hout Hdst].
        split; [done|]. split; [lia|].
        destruct (cost_step_le _ _ _ _ _ _ _ _ tables i (S (length out))
                    (op_insert a) i (length out) insert_cost)
          as (x & c & Hx & Hc & Hstep); [by constructor|lia|lia|].
        replace (length out + 1) with (S (length out)) in Hc1 by lia.
        rewrite Hc1 in Hx. injection Hx as <-.
        exists c, c'. split; [done|]. split; [done|].
        assert (script_cost ([tag; a] :: script) = (insert_cost + script_cost script)%Z) as ->
          by (subst tag; reflexivity).
        lia.
    + (* Replace *)
      case_bool_decide as HR; [|done]. case_bool_decide as Ha; [|done]. injection Hop as <-.
      destruct (Hcur a Ha) as (Hlt & Hs & Hd). rewrite Hd in Hrun.
      rewrite insert_app_r_alt, Nat.sub_diag in Hrun by lia. simpl in Hrun.
      replace (out ++ b :: drop (S i) (take k source))
        with ((out ++ [b]) ++ drop (S i) (take k source)) in Hrun by (by rewrite <- app_assoc).
      replace (length out + 1) with (length (out ++ [b])) in Hrun
        by (rewrite length_app; simpl; lia).
      destruct (IH (S i) (out ++ [b]) ltac:(lia) Hrun) as (Hpre & Hle & c1 & c' & Hc1 & Hc' & Hcost).
      rewrite length_app in Hpre, Hle, Hc1. simpl in Hpre, Hle, Hc1.
      destruct (snoc_take _ _ _ Hpre) as [Hout Hdst].
      split; [done|]. split; [lia|].
      replace (length out + 1) with (S (length out)) in Hc1 by lia.
      assert (exists c, get2 costs i (length out) = Ok c /\ (c1 <= c + replace_cost)%Z)
        as (c & Hc & Hstep).
      { destruct (decide (a = b)) as [<-|Hab].
        - destruct (cost_step_le _ _ _ _ _ _ _ _ tables (S i) (S (length out))
                      (op_copy a) i (length out) copy_cost)
            as (x & c & Hx & Hc & Hstep); [by constructor|lia|lia|].
          rewrite Hc1 in Hx. injection Hx as <-. exists c. split; [done|lia].
        - destruct (cost_step_le _ _ _ _ _ _ _ _ tables (S i) (S (length out))
                      (op_replace a b) i (length out) replace_cost)
            as (x & c & Hx & Hc & Hstep); [by constructor|lia|lia|].
          rewrite Hc1 in Hx. injection Hx as <-. exists c. split; [done|lia]. }
      exists c, c'. split; [done|]. split; [done|].
      assert (script_cost ([tag; a; b] :: script) = (replace_cost + script_cost script)%Z) as ->
        by (subst tag; reflexivity).
      lia.
Qed.

End LowerBound.

(** X3: both tables have [len(source) + 1] rows of
    [len(destination) + 1] entries each. *)
Theorem tables_dimensions (s d : str) (copy_cost replace_cost delete_cost insert_cost : Z) :
  exists costs ops,
    compute_transform_tables copy_cost replace_cost delete_cost insert_cost s d = Ok (costs, ops) /\
    length costs = length s + 1 /\ length ops = length s + 1 /\
    (forall row, row ∈ costs -> length row = length d + 1) /\
    (forall row, row ∈ ops -> length row = length d + 1).
Proof.
  destruct (compute_transform_tables_ok copy_cost replace_cost delete_cost insert_cost s d)
    as (costs & ops & E & [Hc1 Hc2] & [Ho1 Ho2] & _).
  exists costs, ops. split; [done|]. split; [done|]. split; [done|].
  split; intros row [i Hi]%list_elem_of_lookup; eauto.
Qed.


Lemma tables_dimensions_witness :
  exists costs ops,
    compute_transform_tables 1 1 1 1 (py "te") (py "test") = Ok (costs, ops) /\
    length costs = length (py "te") + 1 /\ length ops = length (py "te") + 1 /\
    (forall row, row ∈ costs -> length row = length (py "test") + 1) /\
    (forall row, row ∈ ops -> length row = length (py "test") + 1).
Proof. apply (tables_dimensions (py "te") (py "test") 1 1 1 1). Defined.

(** X4: the operation table holds "0" at the origin, the deletion of
    [source[i-1]] down the first column, the insertion of
    [destination[j-1]] along the first row, and in every other cell one
    of: the copy of [source[i-1]], only where it equals
    [destination[j-1]]; the replacement of [source[i-1]] by
    [destination[j-1]], only where they differ; the deletion of
    [source[i-1]]; the insertion of [destination[j-1]]. *)
Theorem operation_table_shape (s d : str) (copy_cost replace_cost delete_cost insert_cost : Z) :
  exists costs ops,
    compute_transform_tables copy_cost replace_cost delete_cost insert_cost s d = Ok (costs, ops) /\
    get2 ops 0 0 = Ok (py "0") /\
    (forall i a, s !! i = Some a -> get2 ops (S i) 0 = Ok (op_delete a)) /\
    (forall j b, d !! j = Some b -> get2 ops 0 (S j) = Ok (op_insert b)) /\
    (forall i j a b, s !! i = Some a -> d !! j = Some b ->
       (get2 ops (S i) (S j) = Ok (op_copy a) /\ a = b) \/
       (get2 ops (S i) (S j) = Ok (op_replace a b) /\ a <> b) \/
       get2 ops (S i) (S j) = Ok (op_delete a) \/
       get2 ops (S i) (S j) = Ok (op_insert b)).
Proof.
  destruct (compute_transform_tables_ok copy_cost replace_cost delete_cost insert_cost s d)
    as (costs & ops & E & Hok).
  pose proof Hok as (_ & _ & Hcells).
  exists costs, ops. split; [done|].
  split; [by destruct (origin_cost _ _ _ _ _ _ _ _ Hok)|].
  split; [|split].
  - intros i a Ha. apply lookup_lt_Some in Ha as Hlt.
    destruct (Hcells (S i) 0 ltac:(lia) ltac:(lia)) as (a0 & Ha0 & _ & Ho).
    rewrite Ha in Ha0. by injection Ha0 as <-.
  - intros j b Hb. apply lookup_lt_Some in Hb as Hlt.
    destruct (Hcells 0 (S j) ltac:(lia) ltac:(lia)) as (b0 & Hb0 & _ & Ho).
    rewrite Hb in Hb0. by injection Hb0 as <-.
  - intros i j a b Ha Hb.
    apply lookup_lt_Some in Ha as Hi. apply lookup_lt_Some in Hb as Hj.
    destruct (Hcells (S i) (S j) ltac:(lia) ltac:(lia))
      as (a0 & b0 & diag & vert & horiz & Ha0 & Hb0 & _ & _ & _ & _ & Ho).
    rewrite Ha in Ha0. rewrite Hb in Hb0. injection Ha0 as <-. injection Hb0 as <-.
    rewrite Ho. unfold choose.
    destruct (Z.ltb_spec (vert + delete_cost)
                (if bool_decide (a = b) then diag + copy_cost else diag + replace_cost));
      simpl;
      (match goal with |- context [Z.ltb (horiz + insert_cost) ?y] =>
         destruct (Z.ltb_spec (horiz + insert_cost) y) end; simpl);
      try case_bool_decide; tauto.
Qed.


Lemma operation_table_shape_witness :
  exists costs ops,
    compute_transform_tables 1 1 1 1 (py "te") (py "test") = Ok (costs, ops) /\
    get2 ops 0 0 = Ok (py "0") /\
    get2 ops 2 0 = Ok (op_delete "e") /\
    get2 ops 0 3 = Ok (op_insert "s") /\
    ((get2 ops 2 4 = Ok (op_copy "e") /\ "e"%char = "t"%char) \/
     (get2 ops 2 4 = Ok (op_replace "e" "t") /\ "e"%char <> "t"%char) \/
     get2 ops 2 4 = Ok (op_delete "e") \/
     get2 ops 2 4 = Ok (op_insert "t")).
Proof.
  destruct (operation_table_shape (py "te") (py "test") 1 1 1 1)
    as (costs & ops & E & H0 & Hc & Hr & Hi).
  exists costs, ops. split; [exact E|]. split; [exact H0|].
  split; [apply (Hc 1); reflexivity|]. split; [apply (Hr 2); reflexivity|].
  apply (Hi 1 3); reflexivity.
Defined.

(** X5: no entry of the cost table exceeds the cost of deleting the [i]
    source symbols and inserting the [j] destination symbols; with
    non-negative costs no entry is negative. *)
Theorem cost_matrix_bounds (s d : str) (copy_cost replace_cost delete_cost insert_cost : Z) :
  exists costs ops,
    compute_transform_tables copy_cost replace_cost delete_cost insert_cost s d = Ok (costs, ops) /\
    forall i j, i <= length s -> j <= length d ->
      exists c, get2 costs i j = Ok c /\
        (c <= Z.of_nat i * delete_cost + Z.of_nat j * insert_cost)%Z /\
        ((0 <= copy_cost)%Z -> (0 <= replace_cost)%Z ->
         (0 <= delete_cost)%Z -> (0 <= insert_cost)%Z -> (0 <= c)%Z).
Proof.
  destruct (compute_transform_tables_ok copy_cost replace_cost delete_cost insert_cost s d)
    as (costs & ops & E & Hok).
  exists costs, ops. split; [done|].
  apply (cost_cells_ind _ _ _ _ _ _ _ _ Hok
           (fun i j c =>
              (c <= Z.of_nat i * delete_cost + Z.of_nat j * insert_cost)%Z /\
              ((0 <= copy_cost)%Z -> (0 <= replace_cost)%Z ->
               (0 <= delete_cost)%Z -> (0 <= insert_cost)%Z -> (0 <= c)%Z))).
  - lia.
  - intros i _. split; [lia|]. intros. nia.
  - intros j _. split; [lia|]. intros. nia.
  - intros i j a b diag vert horiz _ _ [H1 H1'] [H2 H2'] [H3 H3'].
    rewrite choose_cost. split; [lia|]. intros Hc Hr Hd Hi.
    specialize (H1' Hc Hr Hd Hi). specialize (H2' Hc Hr Hd Hi). specialize (H3' Hc Hr Hd Hi).
    case_bool_decide; lia.
Qed.


Lemma cost_matrix_bounds_witness :
  exists costs ops,
    compute_transform_tables 1 1 1 1 (py "te") (py "test") = Ok (costs, ops) /\
    exists c, get2 costs 2 4 = Ok c /\ (c <= 2 * 1 + 4 * 1)%Z /\ (0 <= c)%Z.
Proof.
  destruct (cost_matrix_bounds (py "te") (py "test") 1 1 1 1) as (costs & ops & E & H).
  exists costs, ops. split; [exact E|].
  destruct (H 2 4) as (c & Hc & Hup & Hlow); [simpl; lia..|].
  exists c. split; [exact Hc|]. split; [exact Hup|]. apply Hlow; lia.
Defined.

(** X6: when the four costs are all 1, the entry at [(i, j)] is the larger
    of [i] and [j]. *)
Theorem unit_cost_matrix (s d : str) :
  exists costs ops,
    compute_transform_tables 1 1 1 1 s d = Ok (costs, ops) /\
    forall i j, i <= length s -> j <= length d ->
      get2 costs i j = Ok (Z.of_nat (Nat.max i j)).
Proof.
  destruct (compute_transform_tables_ok 1 1 1 1 s d) as (costs & ops & E & Hok).
  exists costs, ops. split; [done|]. intros i j Hi Hj.
  destruct (cost_cells_ind _ _ _ _ _ _ _ _ Hok (fun i j c => c = Z.of_nat (Nat.max i j)))
    with (i := i) (j := j) as (c & Hc & ->); try done.
  - intros i' _. lia.
  - intros j' _. lia.
  - intros i' j' a b diag vert horiz _ _ -> -> ->.
    rewrite choose_cost. case_bool_decide; lia.
Qed.


Lemma unit_cost_matrix_witness :
  exists costs ops,
    compute_transform_tables 1 1 1 1 (py "te") (py "test") = Ok (costs, ops) /\
    get2 costs 2 4 = Ok 4%Z /\ get2 costs 1 1 = Ok 1%Z.
Proof.
  destruct (unit_cost_matrix (py "te") (py "test")) as (costs & ops & E & H).
  exists costs, ops. split; [exact E|].
  split; [apply (H 2 4); simpl; lia|apply (H 1 1); simpl; lia].
Defined.

(** X7: for every cell [(i, j)] the assembled script turns the first [i]
    symbols of the source into the first [j] symbols of the destination,
    and its cost is the entry of the cost table at that cell. *)
Theorem every_cell_round_trip (s d : str) (copy_cost replace_cost delete_cost insert_cost : Z) :
  exists costs ops,
    compute_transform_tables copy_cost replace_cost delete_cost insert_cost s d = Ok (costs, ops) /\
    forall i j fuel, i <= length s -> j <= length d -> i + j < fuel ->
      exists script,
        assemble_transformation fuel ops (Z.of_nat i) (Z.of_nat j) = Ok script /\
        apply_script script (take i s, 0) = Some (take j d, j) /\
        get2 costs i j = Ok (script_cost copy_cost replace_cost delete_cost insert_cost script).
Proof.
  destruct (compute_transform_tables_ok copy_cost replace_cost delete_cost insert_cost s d)
    as (costs & ops & E & Hok).
  exists costs, ops. split; [done|]. intros i j fuel Hi Hj Hfuel.
  destruct (assemble_path _ _ _ _ _ _ _ _ Hok fuel i j Hi Hj Hfuel) as (script & Ea & Hp & Hc).
  exists script. split; [done|]. split; [|done].
  rewrite (script_path_apply _ _ _ _ _ _ i i j script Hp) by lia.
  rewrite drop_ge, app_nil_r; [done|]. rewrite length_take. lia.
Qed.


Lemma every_cell_round_trip_witness :
  exists costs ops,
    compute_transform_tables 1 1 1 1 (py "te") (py "test") = Ok (costs, ops) /\
    exists script,
      assemble_transformation 4 ops 1 2 = Ok script /\
      apply_script script (py "t", 0) = Some (py "te", 2) /\
      get2 costs 1 2 = Ok (script_cost 1 1 1 1 script).
Proof.
  destruct (every_cell_round_trip (py "te") (py "test") 1 1 1 1) as (costs & ops & E & H).
  exists costs, ops. split; [exact E|]. apply (H 1 2 4); simpl; lia.
Defined.

(** X8: when copying costs no more than replacing, no script that turns
    the first [i] symbols of the source into the first [j] symbols of the
    destination costs less than the entry of the cost table at
    [(i, j)]. *)
Theorem cost_matrix_lower_bound (s d : str) (copy_cost replace_cost delete_cost insert_cost : Z) :
  (copy_cost <= replace_cost)%Z ->
  exists costs ops,
    compute_transform_tables copy_cost replace_cost delete_cost insert_cost s d = Ok (costs, ops) /\
    forall i j script, i <= length s -> j <= length d ->
      apply_script script (take i s, 0) = Some (take j d, j) ->
      exists c, get2 costs i j = Ok c /\
        (c <= script_cost copy_cost replace_cost delete_cost insert_cost script)%Z.
Proof.
  intros Hle.
  destruct (compute_transform_tables_ok copy_cost replace_cost delete_cost insert_cost s d)
    as (costs & ops & E & Hok).
  exists costs, ops. split; [done|]. intros i j script Hi Hj Hrun.
  destruct (lower_bound_run _ _ _ _ _ _ _ _ Hok Hle i j Hi Hj script 0 [] ltac:(lia) Hrun)
    as (_ & _ & c & c' & Hc & Hc' & Hcost).
  destruct (origin_cost _ _ _ _ _ _ _ _ Hok) as [H0 _]. simpl in Hc.
  rewrite H0 in Hc. injection Hc as <-. exists c'. split; [done|lia].
Qed.


Lemma cost_matrix_lower_bound_witness :
  exists costs ops,
    compute_transform_tables 1 1 1 1 (py "te") (py "test") = Ok (costs, ops) /\
    exists c, get2 costs 2 4 = Ok c /\
      (c <= script_cost 1 1 1 1 [py "Ct"; py "Ce"; py "Is"; py "It"])%Z.
Proof.
  destruct (cost_matrix_lower_bound (py "te") (py "test") 1 1 1 1) as (costs & ops & E & H);
    [lia|].
  exists costs, ops. split; [exact E|].
  apply (H 2 4 [py "Ct"; py "Ce"; py "Is"; py "It"]); [simpl; lia..|reflexivity].
Defined.

(** X9: along the first row the assembled script is the insertions of the
    destination symbols in order, and down the first column the deletions
    of the source symbols in order; so for an empty source the whole
    script is insertions, and for an empty destination deletions. *)
Theorem first_row_and_column_scripts (s d : str)
    (copy_cost replace_cost delete_cost insert_cost : Z) :
  exists costs ops,
    compute_transform_tables copy_cost replace_cost delete_cost insert_cost s d = Ok (costs, ops) /\
    (forall j fuel, j <= length d -> j < fuel ->
       assemble_transformation fuel ops 0 (Z.of_nat j) = Ok (map op_insert (take j d))) /\
    (forall i fuel, i <= length s -> i < fuel ->
       assemble_transformation fuel ops (Z.of_nat i) 0 = Ok (map op_delete (take i s))).
Proof.
  destruct (compute_transform_tables_ok copy_cost replace_cost delete_cost insert_cost s d)
    as (costs & ops & E & Hok).
  exists costs, ops. split; [done|]. split.
  - intros j fuel Hj Hfuel.
    destruct (assemble_path _ _ _ _ _ _ _ _ Hok fuel 0 j ltac:(lia) Hj ltac:(lia))
      as (script & Ea & Hp & _).
    change (Z.of_nat 0) with 0%Z in Ea. rewrite Ea.
    by rewrite (script_path_first_row _ _ _ _ _ _ _ _ Hok j script Hp).
  - intros i fuel Hi Hfuel.
    destruct (assemble_path _ _ _ _ _ _ _ _ Hok fuel i 0 Hi ltac:(lia) ltac:(lia))
      as (script & Ea & Hp & _).
    change (Z.of_nat 0) with 0%Z in Ea. rewrite Ea.
    by rewrite (script_path_first_column _ _ _ _ _ _ _ _ Hok i script Hp).
Qed.


Lemma first_row_and_column_scripts_witness :
  exists costs ops,
    compute_transform_tables 1 1 1 1 (py "te") (py "test") = Ok (costs, ops) /\
    assemble_transformation 5 ops 0 4 = Ok [py "It"; py "Ie"; py "Is"; py "It"] /\
    assemble_transformation 3 ops 2 0 = Ok [py "Dt"; py "De"].
Proof.
  destruct (first_row_and_column_scripts (py "te") (py "test") 1 1 1 1)
    as (costs & ops & E & Hrow & Hcol).
  exists costs, ops. split; [exact E|].
  split; [apply (Hrow 4 5); simpl; lia|apply (Hcol 2 3); simpl; lia].
Defined.

(** X10: the script assembled for the cell [(i, j)] has exactly [i]
    operations that use up a source symbol (Copy, Replace, Delete) and
    exactly [j] that give a destination symbol (Copy, Replace, Insert);
    its length lies between the larger of [i] and [j] and [i + j]. *)
Theorem script_operation_counts (s d : str) (copy_cost replace_cost delete_cost insert_cost : Z) :
  exists costs ops,
    compute_transform_tables copy_cost replace_cost delete_cost insert_cost s d = Ok (costs, ops) /\
    forall i j fuel, i <= length s -> j <= length d -> i + j < fuel ->
      exists script,
        assemble_transformation fuel ops (Z.of_nat i) (Z.of_nat j) = Ok script /\
        length (List.filter consumes script) = i /\
        length (List.filter produces script) = j /\
        Nat.max i j <= length script <= i + j.
Proof.
  destruct (compute_transform_tables_ok copy_cost replace_cost delete_cost insert_cost s d)
    as (costs & ops & E & Hok).
  exists costs, ops. split; [done|]. intros i j fuel Hi Hj Hfuel.
  destruct (assemble_path _ _ _ _ _ _ _ _ Hok fuel i j Hi Hj Hfuel) as (script & Ea & Hp & _).
  destruct (assemble_in_range _ _ _ _ _ _ _ _ Hok fuel i j Hi Hj Hfuel) as (script' & Ea' & Hlen & _).
  rewrite Ea in Ea'. injection Ea' as <-.
  destruct (script_path_counts _ _ _ _ _ _ i j script Hp) as [Hc Hpr].
  exists script. split; [done|]. split; [done|]. split; [done|].
  pose proof (List.filter_length_le consumes script).
  pose proof (List.filter_length_le produces script). lia.
Qed.


Lemma script_operation_counts_witness :
  exists costs ops,
    compute_transform_tables 1 1 1 1 (py "te") (py "test") = Ok (costs, ops) /\
    exists script,
      assemble_transformation 7 ops 2 4 = Ok script /\
      length (List.filter consumes script) = 2 /\
      length (List.filter produces script) = 4 /\
      Nat.max 2 4 <= length script <= 2 + 4.
Proof.
  destruct (script_operation_counts (py "te") (py "test") 1 1 1 1) as (costs & ops & E & H).
  exists costs, ops. split; [exact E|]. apply (H 2 4 7); simpl; lia.
Defined.

(** X11: when deleting and inserting cost the same, exchanging source and
    destination transposes the cost table: the cost of turning one string
    into the other is the same in both directions. *)
Theorem cost_matrix_symmetric (s d : str) (copy_cost replace_cost indel_cost : Z) :
  exists costs ops costs' ops',
    compute_transform_tables copy_cost replace_cost indel_cost indel_cost s d = Ok (costs, ops) /\
    compute_transform_tables copy_cost replace_cost indel_cost indel_cost d s = Ok (costs', ops') /\
    forall i j, i <= length s -> j <= length d ->
      exists c, get2 costs i j = Ok c /\ get2 costs' j i = Ok c.
Proof.
  destruct (compute_transform_tables_ok copy_cost replace_cost indel_cost indel_cost s d)
    as (costs & ops & E & Hok).
  destruct (compute_transform_tables_ok copy_cost replace_cost indel_cost indel_cost d s)
    as (costs' & ops' & E' & Hok').
  exists costs, ops, costs', ops'. split; [done|]. split; [done|].
  pose proof Hok' as (_ & _ & Hcells').
  apply (cost_cells_ind _ _ _ _ _ _ _ _ Hok (fun i j c => get2 costs' j i = Ok c)).
  - by destruct (origin_cost _ _ _ _ _ _ _ _ Hok').
  - intros i Hi. apply (row_cost _ _ _ _ _ _ _ _ Hok'). lia.
  - intros j Hj. apply (column_cost _ _ _ _ _ _ _ _ Hok'). lia.
  - intros i j a b diag vert horiz Ha Hb Q1 Q2 Q3.
    apply lookup_lt_Some in Ha as Hi. apply lookup_lt_Some in Hb as Hj.
    destruct (Hcells' (S j) (S i) ltac:(lia) ltac:(lia))
      as (b0 & a0 & diag' & vert' & horiz' & Hb0 & Ha0 & Hd & Hv & Hh & Hc & _).
    rewrite Hb in Hb0. rewrite Ha in Ha0. injection Hb0 as <-. injection Ha0 as <-.
    rewrite Q1 in Hd. rewrite Q3 in Hv. rewrite Q2 in Hh.
    injection Hd as <-. injection Hv as <-. injection Hh as <-.
    rewrite Hc. f_equal. rewrite !choose_cost.
    rewrite (bool_decide_ext (b = a) (a = b)) by done. lia.
Qed.

Lemma cost_matrix_symmetric_witness :
  exists costs ops costs' ops',
    compute_transform_tables 0 3 2 2 (py "te") (py "test") = Ok (costs, ops) /\
    compute_transform_tables 0 3 2 2 (py "test") (py "te") = Ok (costs', ops') /\
    exists c, get2 costs 2 4 = Ok c /\ get2 costs' 4 2 = Ok c.
Proof.
  destruct (cost_matrix_symmetric (py "te") (py "test") 0 3 2)
    as (costs & ops & costs' & ops' & E & E' & H).
  exists costs, ops, costs', ops'. split; [exact E|]. split; [exact E'|].
  apply (H 2 4); simpl; lia.
Defined.

(** X12: for a string and itself, the entry at [(i, i)] is at most [i]
    copies; when copying is free and the other costs are not negative,
    it is 0. *)
Theorem identical_strings_cost (s : str) (copy_cost replace_cost delete_cost insert_cost : Z) :
  exists costs ops,
    compute_transform_tables copy_cost replace_cost delete_cost insert_cost s s = Ok (costs, ops) /\
    forall i, i <= length s ->
      exists c, get2 costs i i = Ok c /\
        (c <= Z.of_nat i * copy_cost)%Z /\
        (copy_cost = 0%Z -> (0 <= replace_cost)%Z -> (0 <= delete_cost)%Z ->
         (0 <= insert_cost)%Z -> c = 0%Z).
Proof.
  destruct (compute_transform_tables_ok copy_cost replace_cost delete_cost insert_cost s s)
    as (costs & ops & E & Hok).
  exists costs, ops. split; [done|].
  assert (forall i, i <= length s ->
            exists c, get2 costs i i = Ok c /\ (c <= Z.of_nat i * copy_cost)%Z) as Hup.
  { induction i as [|i IH]; intros Hi.
    - destruct (origin_cost _ _ _ _ _ _ _ _ Hok) as [H0 _]. exists 0%Z. split; [done|lia].
    - destruct (IH ltac:(lia)) as (c & Hc & Hle).
      destruct (lookup_lt_is_Some_2 s i ltac:(lia)) as [a Ha].
      destruct (cost_step_le _ _ _ _ _ _ _ _ Hok (S i) (S i) (op_copy a) i i copy_cost)
        as (c1 & c0 & Hc1 & Hc0 & Hstep); [by constructor|lia|lia|].
      rewrite Hc in Hc0. injection Hc0 as <-. exists c1. split; [done|lia]. }
  intros i Hi. destruct (Hup i Hi) as (c & Hc & Hle).
  exists c. split; [done|]. split; [done|]. intros -> Hr Hd Hins.
  destruct (cost_cells_ind _ _ _ _ _ _ _ _ Hok (fun _ _ c => (0 <= c)%Z))
    with (i := i) (j := i) as (c' & Hc' & Hpos); try done.
  - intros; nia.
  - intros; nia.
  - intros i' j' a b diag vert horiz _ _ H1 H2 H3. rewrite choose_cost.
    case_bool_decide; lia.
  - rewrite Hc in Hc'. injection Hc' as <-. lia.
Qed.

Lemma identical_strings_cost_witness :
  exists costs ops,
    compute_transform_tables 0 1 1 1 (py "test") (py "test") = Ok (costs, ops) /\
    exists c, get2 costs 4 4 = Ok c /\ (c <= 4 * 0)%Z /\ c = 0%Z.
Proof.
  destruct (identical_strings_cost (py "test") 0 1 1 1) as (costs & ops & E & H).
  exists costs, ops. split; [exact E|].
  destruct (H 4) as (c & Hc & Hle & Hz); [simpl; lia|].
  exists c. split; [exact Hc|]. split; [exact Hle|]. apply Hz; lia.
Defined.

(** ** print_operations *)

(** Settle the tests on the tag of an operation. *)
Ltac decide_tags :=
  repeat match goal with
  | H : context [bool_decide (?x = ?y :> ascii)] |- _ =>
      first [ rewrite (bool_decide_true (x = y)) in H by congruence
            | rewrite (bool_decide_false (x = y)) in H by congruence ]
  | |- context [bool_decide (?x = ?y :> ascii)] =>
      first [ rewrite (bool_decide_true (x = y)) by congruence
            | rewrite (bool_decide_false (x = y)) by congruence ]
  end.

Lemma print_step_facts op string i cost printed written string' i' cost' printed' written' r :
  print_step op (string, i, cost, printed, written)
  = ((string', i', cost', printed', written'), r) ->
  printed' = printed ++ [string] /\
  (r = Ok tt -> i' = i + 1 /\ cost' = (cost + printed_weight op)%Z).
Proof.
  unfold print_step, index. intros H.
  destruct op as [|tag rest]; simpl in H; [by simplify_eq|].
  unfold printed_weight.
  repeat (case_match; simplify_eq); split; try done; intros _; split; lia.
Qed.

Lemma print_loop_facts sequence :
  forall string i cost printed written string' i' cost' printed' written' r,
  print_loop sequence (string, i, cost, printed, written)
  = ((string', i', cost', printed', written'), r) ->
  (exists more, printed' = printed ++ more /\
     (sequence <> [] -> exists more', more = string :: more') /\
     (r = Ok tt -> length more = length sequence)) /\
  (r = Ok tt -> i' = i + length sequence /\ cost' = (cost + printed_cost sequence)%Z).
Proof.
  induction sequence as [|op sequence IH];
    intros string i cost printed written string' i' cost' printed' written' r H.
  - simpl in H. simplify_eq. split; [|intros _; simpl; split; lia].
    exists []. by rewrite app_nil_r.
  - cbn [print_loop] in H.
    destruct (print_step op (string, i, cost, printed, written))
      as [[[[[string1 i1] cost1] printed1] written1] r1] eqn:Hstep.
    apply print_step_facts in Hstep as [-> Hok].
    destruct r1 as [[]| |].
    + apply IH in H as [(more & -> & _ & Hlen) Hrest]. split.
      * exists (string :: more). rewrite <- app_assoc. split; [done|]. split; [eauto|].
        intros Hr. simpl. by rewrite Hlen.
      * intros Hr. destruct (Hok eq_refl) as [-> ->]. destruct (Hrest Hr) as [-> ->].
        simpl. split; lia.
    + simplify_eq. split; [|done]. exists [string]. split; [done|]. split; [eauto|done].
    + simplify_eq. split; [|done]. exists [string]. split; [done|]. split; [eauto|done].
Qed.

(** Without deletions the loop does what the script says. *)
Lemma print_loop_follows_script sequence :
  forall string i cost printed written string' i',
  (forall op, op ∈ sequence -> is_delete op = false) ->
  apply_script sequence (string, i) = Some (string', i') ->
  exists cost' printed' written',
    print_loop sequence (string, i, cost, printed, written)
    = ((string', i', cost', printed', written'), Ok tt).
Proof.
  induction sequence as [|op sequence IH];
    intros string i cost printed written string' i' Hnd Hrun.
  - simpl in *. simplify_eq. eauto.
  - cbn [apply_script] in Hrun.
    destruct (apply_op op (string, i)) as [[string1 i1]|] eqn:Hop; [|done].
    assert (is_delete op = false) as Hd by (apply Hnd; left).
    assert (exists cost1 printed1 written1,
              print_step op (string, i, cost, printed, written)
              = ((string1, i1, cost1, printed1, written1), Ok tt))
      as (cost1 & printed1 & written1 & Hstep).
    { unfold apply_op in Hop. unfold print_step, index, is_delete in *.
      destruct op as [|tag [|a [|b [|? ?]]]]; try done; simpl.
      - destruct (decide (tag = "C"%char)) as [->|HC];
          [|destruct (decide (tag = "D"%char)) as [->|HD];
            [|destruct (decide (tag = "I"%char)) as [->|HI]]]; decide_tags; try done.
        + case_bool_decide; [|done]. simplify_eq. eauto.
        + destruct (i <=? length string); [|done]. simplify_eq. eauto.
      - destruct (decide (tag = "R"%char)) as [->|HR]; decide_tags; [|done].
        case_bool_decide as Ha; [|done]. apply lookup_lt_Some in Ha as Hlt.
        destruct (Nat.ltb_spec i (length string)); [|lia]. simplify_eq. eauto. }
    cbn [print_loop]. rewrite Hstep.
    apply IH; [|done]. intros op' Hop'. apply Hnd. by right.
Qed.

Lemma print_operations_eq fuel (s d : str) cc rc dc ic costs ops sequence :
  compute_transform_tables cc rc dc ic s d = Ok (costs, ops) ->
  assemble_transformation fuel ops (Z.of_nat (length s)) (Z.of_nat (length d)) = Ok sequence ->
  print_operations fuel s d cc rc dc ic
  = match print_loop sequence (py "Python", 0, 0%Z, [], []) with
    | ((string, _, cost, printed, written), Ok _) =>
        {| stdout := printed ++ [string; py "Cost: " ++ py " " ++ str_of_int cost];
           file_writes := written ++ [[cr; lf] ++ py "Minimum cost: " ++ str_of_int cost];
           outcome := Ok tt |}
    | ((_, _, _, printed, written), e) =>
        {| stdout := printed; file_writes := written; outcome := e |}
    end.
Proof.
  intros E Ea. unfold print_operations. rewrite E.
  destruct (compute_transform_tables_ok cc rc dc ic s d) as (costs' & ops' & E' & Hok).
  rewrite E in E'. injection E' as <- <-.
  destruct (ops_dims _ _ _ _ _ _ _ _ Hok) as [Hlen Hrows].
  destruct (lookup_lt_is_Some_2 ops 0 ltac:(lia)) as [row Hrow].
  unfold index. rewrite Hrow, Hlen, (Hrows _ _ Hrow).
  replace (Z.of_nat (length s + 1) - 1)%Z with (Z.of_nat (length s)) by lia.
  replace (Z.of_nat (length d + 1) - 1)%Z with (Z.of_nat (length d)) by lia.
  by rewrite Ea.
Qed.

Lemma assemble_more_fuel fuel :
  forall fuel' ops i j script,
  assemble_transformation fuel ops i j = Ok script -> fuel <= fuel' ->
  assemble_transformation fuel' ops i j = Ok script.
Proof.
  induction fuel as [|fuel IH]; intros fuel' ops i j script H Hle; [done|].
  destruct fuel' as [|fuel']; [lia|]. cbn [assemble_transformation] in *.
  destruct ((i =? 0)%Z && (j =? 0)%Z); [done|].
  destruct (py_index ops i) as [row| |]; [|done..]. cbn [bind] in *.
  destruct (py_index row j) as [op| |]; [|done..]. cbn [bind] in *.
  destruct (py_index op 0) as [tag| |]; [|done..]. cbn [bind] in *.
  destruct (bool_decide (tag = "C"%char) || bool_decide (tag = "R"%char));
    [|destruct (bool_decide (tag = "D"%char))];
    match type of H with
    | context [assemble_transformation fuel ops ?x ?y] =>
        destruct (assemble_transformation fuel ops x y) as [seq| |] eqn:E; [|done..];
        rewrite (IH fuel' ops x y seq E) by lia; done
    end.
Qed.

(** What the script assembled for the last cell does, whatever the fuel
    that was enough to assemble it. *)
Lemma assembled_script_applies fuel (s d : str) cc rc dc ic costs ops sequence :
  compute_transform_tables cc rc dc ic s d = Ok (costs, ops) ->
  assemble_transformation fuel ops (Z.of_nat (length s)) (Z.of_nat (length d)) = Ok sequence ->
  apply_script sequence (s, 0) = Some (d, length d).
Proof.
  intros E Ea.
  destruct (compute_transform_tables_ok cc rc dc ic s d) as (costs' & ops' & E' & Hok).
  rewrite E in E'. injection E' as <- <-.
  destruct (assemble_in_range _ _ _ _ _ _ _ _ Hok (fuel + (length s + length d + 1))
              (length s) (length d)) as (script & Ea' & _ & _ & Happ); [lia..|].
  rewrite (assemble_more_fuel _ _ _ _ _ _ Ea) in Ea' by lia. injection Ea' as <-.
  rewrite Happ. by rewrite take_ge, drop_all, app_nil_r.
Qed.

(** X13: when [print_operations] returns, it has printed one text for each
    operation of the script and two more, and the cost in its last printed
    text and at the end of the file is the number of replacements, plus
    twice the number of deletions and insertions, minus the number of
    copies: it does not depend on the four cost arguments otherwise. *)
Theorem print_operations_reported_cost (fuel : nat) (s d : str) (cc rc dc ic : Z)
    (costs : list (list Z)) (ops_table : list (list str)) (sequence : list str) :
  compute_transform_tables cc rc dc ic s d = Ok (costs, ops_table) ->
  assemble_transformation fuel ops_table (Z.of_nat (length s)) (Z.of_nat (length d))
  = Ok sequence ->
  outcome (print_operations fuel s d cc rc dc ic) = Ok tt ->
  length (stdout (print_operations fuel s d cc rc dc ic)) = length sequence + 2 /\
  last (stdout (print_operations fuel s d cc rc dc ic))
  = Some (py "Cost: " ++ py " " ++ str_of_int (printed_cost sequence)) /\
  last (file_writes (print_operations fuel s d cc rc dc ic))
  = Some ([cr; lf] ++ py "Minimum cost: " ++ str_of_int (printed_cost sequence)).
Proof.
  intros E Ea. rewrite (print_operations_eq _ _ _ _ _ _ _ _ _ _ E Ea).
  destruct (print_loop sequence (py "Python", 0, 0%Z, [], []))
    as [[[[[string i] cost] printed] written] r] eqn:Hloop.
  apply print_loop_facts in Hloop as [(more & -> & _ & Hlen) Hok].
  destruct r as [[]| |]; [|done..]. intros _.
  destruct (Hok eq_refl) as [_ ->]. cbn [stdout file_writes]. rewrite app_nil_l.
  split; [rewrite length_app, Hlen by done; simpl; lia|].
  rewrite Z.add_0_l. split.
  - change ([string; ?x]) with ([string] ++ [x]). by rewrite app_assoc, last_snoc.
  - by rewrite last_snoc.
Qed.


Lemma print_operations_reported_cost_witness :
  length (stdout (print_operations 17 (py "Python") (py "Algorithms") 1 1 1 1))
  = length python_to_algorithms + 2 /\
  last (stdout (print_operations 17 (py "Python") (py "Algorithms") 1 1 1 1))
  = Some (py "Cost: " ++ py " " ++ str_of_int (printed_cost python_to_algorithms)) /\
  last (file_writes (print_operations 17 (py "Python") (py "Algorithms") 1 1 1 1))
  = Some ([cr; lf] ++ py "Minimum cost: " ++ str_of_int (printed_cost python_to_algorithms)).
Proof.
  eapply (print_operations_reported_cost 17 (py "Python") (py "Algorithms") 1 1 1 1
            _ _ python_to_algorithms).
  - vm_compute; reflexivity.
  - vm_compute; reflexivity.
  - vm_compute; reflexivity.
Defined.

(** X14: the text that [print_operations] edits is "Python", whatever the
    source string is: that is the first text it prints. *)
Theorem print_operations_starts_from_python (fuel : nat) (s d : str) (cc rc dc ic : Z) :
  length s + length d < fuel ->
  exists rest, stdout (print_operations fuel s d cc rc dc ic) = py "Python" :: rest.
Proof.
  intros Hfuel.
  destruct (compute_transform_tables_ok cc rc dc ic s d) as (costs & ops & E & Hok).
  destruct (assemble_in_range _ _ _ _ _ _ _ _ Hok fuel (length s) (length d))
    as (sequence & Ea & _); [lia..|].
  rewrite (print_operations_eq _ _ _ _ _ _ _ _ _ _ E Ea).
  destruct (print_loop sequence (py "Python", 0, 0%Z, [], []))
    as [[[[[string i] cost] printed] written] r] eqn:Hloop.
  destruct sequence as [|op sequence].
  - simpl in Hloop. simplify_eq. cbn. eauto.
  - apply print_loop_facts in Hloop as [(more & -> & Hfirst & _) _].
    destruct Hfirst as [more' ->]; [done|].
    destruct r as [[]| |]; cbn; eauto.
Qed.


Lemma print_operations_starts_from_python_witness :
  exists rest, stdout (print_operations 4 (py "ab") (py "c") 1 1 1 1) = py "Python" :: rest.
Proof.
  apply (print_operations_starts_from_python 4 (py "ab") (py "c") 1 1 1 1). simpl. lia.
Defined.

(** X15: for the source "Python", when the assembled script has no
    deletion, [print_operations] returns, and the text it prints before
    the cost is the destination. *)
Theorem print_operations_without_deletion (fuel : nat) (d : str) (cc rc dc ic : Z)
    (costs : list (list Z)) (ops_table : list (list str)) (sequence : list str) :
  compute_transform_tables cc rc dc ic (py "Python") d = Ok (costs, ops_table) ->
  assemble_transformation fuel ops_table (Z.of_nat (length (py "Python"))) (Z.of_nat (length d))
  = Ok sequence ->
  (forall op, op ∈ sequence -> is_delete op = false) ->
  outcome (print_operations fuel (py "Python") d cc rc dc ic) = Ok tt /\
  exists texts,
    length texts = length sequence /\
    stdout (print_operations fuel (py "Python") d cc rc dc ic)
    = texts ++ [d; py "Cost: " ++ py " " ++ str_of_int (printed_cost sequence)].
Proof.
  intros E Ea Hnd. rewrite (print_operations_eq _ _ _ _ _ _ _ _ _ _ E Ea).
  pose proof (assembled_script_applies _ _ _ _ _ _ _ _ _ _ E Ea) as Happ.
  destruct (print_loop_follows_script sequence (py "Python") 0 0%Z [] [] d (length d) Hnd Happ)
    as (cost' & printed' & written' & Hloop).
  rewrite Hloop. cbn [outcome stdout]. split; [done|].
  apply print_loop_facts in Hloop as [(more & -> & _ & Hlen) Hok].
  destruct (Hok eq_refl) as [_ ->]. rewrite Z.add_0_l.
  exists more. split; [by apply Hlen|done].
Qed.


Lemma print_operations_without_deletion_witness :
  outcome (print_operations 17 (py "Python") (py "Algorithms") 1 1 1 1) = Ok tt /\
  exists texts,
    length texts = length python_to_algorithms /\
    stdout (print_operations 17 (py "Python") (py "Algorithms") 1 1 1 1)
    = texts ++ [py "Algorithms";
                py "Cost: " ++ py " " ++ str_of_int (printed_cost python_to_algorithms)].
Proof.
  eapply (print_operations_without_deletion 17 (py "Algorithms") 1 1 1 1
            _ _ python_to_algorithms).
  - vm_compute; reflexivity.
  - vm_compute; reflexivity.
  - intros op H. unfold python_to_algorithms in H.
    repeat (apply elem_of_cons in H as [->|H]; [reflexivity|]).
    by apply elem_of_nil in H.
Defined.

(** X16: for an empty destination and a source of four symbols or more,
    [print_operations] raises [IndexError] at the fourth deletion, after
    it has printed "Python", "ython", "yhon" and "yhn". *)
Theorem print_operations_empty_destination (fuel : nat) (s : str) (cc rc dc ic : Z) :
  4 <= length s -> length s < fuel ->
  outcome (print_operations fuel s [] cc rc dc ic) = IndexError /\
  stdout (print_operations fuel s [] cc rc dc ic)
  = [py "Python"; py "ython"; py "yhon"; py "yhn"].
Proof.
  intros Hlen Hfuel.
  destruct (compute_transform_tables_ok cc rc dc ic s []) as (costs & ops & E & Hok).
  destruct (assemble_path _ _ _ _ _ _ _ _ Hok fuel (length s) 0 ltac:(lia) ltac:(simpl; lia)
              ltac:(lia)) as (script & Ea & Hp & _).
  rewrite (script_path_first_column _ _ _ _ _ _ _ _ Hok _ _ Hp), take_ge in Ea by lia.
  rewrite (print_operations_eq _ _ _ _ _ _ _ _ _ _ E Ea).
  destruct s as [|a [|b [|c [|e s]]]]; simpl in Hlen; try lia.
  split; reflexivity.
Qed.


Lemma print_operations_empty_destination_witness :
  outcome (print_operations 7 (py "Python") [] 1 1 1 1) = IndexError /\
  stdout (print_operations 7 (py "Python") [] 1 1 1 1)
  = [py "Python"; py "ython"; py "yhon"; py "yhn"].
Proof.
  apply (print_operations_empty_destination 7 (py "Python") 1 1 1 1); simpl; lia.
Defined.

(** ** The doctests of the source, and the scenarios of the specification *)

Example doctest_failure_1 :
  get_failure_array 100 (py "aabaabaaa") = Ok [0; 1; 0; 1; 2; 3; 4; 5; 2].
Proof. reflexivity. Qed.

Example doctest_tables_1 :
  compute_transform_tables 1 1 1 1 (py "") (py "test")
  = Ok ([[0; 1; 2; 3; 4]%Z], [[py "0"; py "It"; py "Ie"; py "Is"; py "It"]]).
Proof. reflexivity. Qed.

Example doctest_tables_3 :
  compute_transform_tables 1 1 1 1 (py "te") (py "test")
  = Ok ([[0; 1; 2; 3; 4]; [1; 1; 2; 3; 4]; [2; 2; 2; 3; 4]]%Z,
        [[py "0"; py "It"; py "Ie"; py "Is"; py "It"];
         [py "Dt"; py "Ct"; py "Rte"; py "Rts"; py "Ct"];
         [py "De"; py "Ret"; py "Ce"; py "Res"; py "Ret"]]).
Proof. reflexivity. Qed.

Example doctest_failure_2 :
  get_failure_array 100 (py "abcdbeabc") = Ok [0; 0; 0; 0; 0; 0; 1; 2; 3].
Proof. reflexivity. Qed.

Example doctest_kmp_1 :
  kmp 200 (py "abc1abc12") (py "alskfjaldsabc1abc1abc12k23adsfabcabc") = Ok true.
Proof. reflexivity. Qed.

Example doctest_kmp_2 :
  kmp 200 (py "abc1abc12") (py "alskfjaldsk23adsfabcabc") = Ok false.
Proof. reflexivity. Qed.

Example doctest_kmp_3 : kmp 200 (py "ABABX") (py "ABABZABABYABABX") = Ok true.
Proof. reflexivity. Qed.

Example doctest_kmp_4 : kmp 200 (py "AAAB") (py "ABAAAAAB") = Ok true.
Proof. reflexivity. Qed.

Example doctest_kmp_5 :
  kmp 200 (py "abcdabcy") (py "abcxabcdabxabcdabcdabcy") = Ok true.
Proof. reflexivity. Qed.

Example doctest_tables_4 :
  compute_transform_tables 1 1 1 1 (py "pl") (py "tst")
  = Ok ([[0; 1; 2; 3]; [1; 1; 2; 3]; [2; 2; 2; 3]]%Z,
        [[py "0"; py "It"; py "Is"; py "It"];
         [py "Dp"; py "Rpt"; py "Rps"; py "Rpt"];
         [py "Dl"; py "Rlt"; py "Rls"; py "Rlt"]]).
Proof. reflexivity. Qed.

Example doctest_tables_5 :
  compute_transform_tables 1 1 1 1 (py "test") (py "")
  = Ok ([[0]; [1]; [2]; [3]; [4]]%Z, [[py "0"]; [py "Dt"]; [py "De"]; [py "Ds"]; [py "Dt"]]).
Proof. reflexivity. Qed.

Example doctest_assemble_1 : assemble_te_test 0 0 = Ok [].
Proof. reflexivity. Qed.

Example doctest_assemble_2 : assemble_te_test 1 1 = Ok [py "Ct"].
Proof. reflexivity. Qed.

Example doctest_assemble_3 : assemble_te_test 2 1 = Ok [py "Dt"; py "Ret"].
Proof. reflexivity. Qed.

Example doctest_assemble_4 : assemble_te_test 1 2 = Ok [py "It"; py "Rte"].
Proof. reflexivity. Qed.

(** "te" to "test" with all four costs 1: a copy costs 1 as well, so the
    script has cost 4, the entry of the cost table at (2, 4). *)
Example scenario_te_test :
  assemble_te_test 2 4 = Ok [py "It"; py "Ie"; py "Rts"; py "Ret"] /\
  apply_script [py "It"; py "Ie"; py "Rts"; py "Ret"] (py "te", 0) = Some (py "test", 4) /\
  script_cost 1 1 1 1 [py "It"; py "Ie"; py "Rts"; py "Ret"] = 4%Z.
Proof. repeat split; reflexivity. Qed.

Example assemble_out_of_range : assemble_te_test 3 0 = IndexError.
Proof. reflexivity. Qed.

Example assemble_negative_index : assemble_te_test (-1) 2 = IndexError.
Proof. reflexivity. Qed.

(** A script with a deletion: "ab" to "c" is [Da; Rbc]. *)
Example script_with_delete :
  (let* (_, ops) := compute_transform_tables 1 1 1 1 (py "ab") (py "c") in
   assemble_transformation 10 ops 2 1) = Ok [py "Da"; py "Rbc"] /\
  apply_script [py "Da"; py "Rbc"] (py "ab", 0) = Some (py "c", 1).
Proof. split; reflexivity. Qed.

Example doctest_print_operations :
  stdout (print_operations 17 (py "Python") (py "Algorithms") 1 1 1 1)
  = [py "Python"; py "APython"; py "AlPython"; py "AlgPython"; py "AlgoPython";
     py "Algorython"; py "Algorithon"; py "Algorithon"; py "Algorithon";
     py "Algorithmn"; py "Algorithms"; py "Cost:  10"].
Proof. reflexivity. Qed.
